(** * Repetier-Firmware stepper drivers (src/Repetier/src/drivers/stepper.h)

    A shallow embedding of [StepperDriverBase], [SimpleStepperDriver] and
    [TMC2130StepperDriver], with the peripherals they talk to (output pins,
    endstops, the console, the TMC2130 chip handle) kept as an explicit
    machine state and a chronological trace of the calls made on them. *)

From Stdlib Require Import ZArith List String Bool Arith Lia.
Import ListNotations.
Local Open Scope Z_scope.

(** ** Machine integers *)

(** Conversion to an unsigned type of [w] bits. *)
Definition to_uint (w : Z) (x : Z) : Z := x mod 2 ^ w.
Definition uint16 : Z -> Z := to_uint 16.
Definition uint32 : Z -> Z := to_uint 32.

(** ** Small monads: state, and state with possible divergence *)

(** Total code: a function of the state. *)
Definition St (S A : Type) : Type := S -> A * S.

Definition ret {S A} (a : A) : St S A := fun s => (a, s).
Definition bind {S A B} (m : St S A) (k : A -> St S B) : St S B :=
  fun s => let r := m s in k (fst r) (snd r).

(** Code containing a loop that need not end: [None] is "ran out of fuel". *)
Definition Dv (S A : Type) : Type := S -> option (A * S).

Definition retD {S A} (a : A) : Dv S A := fun s => Some (a, s).
Definition bindD {S A B} (m : Dv S A) (k : A -> Dv S B) : Dv S B :=
  fun s => match m s with
           | Some r => k (fst r) (snd r)
           | None => None
           end.
Definition total {S A} (m : St S A) : Dv S A := fun s => Some (m s).

Declare Scope st_scope.
Delimit Scope st_scope with st.
Notation "x <- m ;; k" := (bind m (fun x => k))
  (at level 61, m at next level, right associativity) : st_scope.
Notation "m ;; k" := (bind m (fun _ => k))
  (at level 61, right associativity) : st_scope.

Declare Scope dv_scope.
Delimit Scope dv_scope with dv.
Notation "x <- m ;; k" := (bindD m (fun x => k))
  (at level 61, m at next level, right associativity) : dv_scope.
Notation "m ;; k" := (bindD m (fun _ => k))
  (at level 61, right associativity) : dv_scope.

(** ** External collaborators *)

(** [class EndstopDriver;] is only declared in this header.  An endstop is an
    object with some state of its own and a method [update()] that reports
    whether it is triggered. *)
Class EndstopDriver (E : Type) : Type :=
  { update : E -> bool * E }.

(** Objects are referred to through pointers; two pointers may be equal. *)
Definition ptr : Type := nat.

(** The six registers the driver saves around homing. *)
Inductive Register : Type :=
  GCONF | CHOPCONF | COOLCONF | PWMCONF | TCOOLTHRS | TPWMTHRS.

(** The member functions of [TMC2130Stepper] (from <TMC2130Stepper.h>, an
    external library) that the header calls, indexed by what they return. *)
Inductive ChipCall : Type -> Type :=
| begin : ChipCall unit
| test_connection : ChipCall Z
| version : ChipCall Z
| stst : ChipCall bool
| reg_get (r : Register) : ChipCall Z
| reg_set (r : Register) (v : Z) : ChipCall unit
| I_scale_analog (b : bool) : ChipCall unit
| interpolate (b : bool) : ChipCall unit
| internal_Rsense (b : bool) : ChipCall unit
| sgt (v : Z) : ChipCall unit
| diag1_stall (b : bool) : ChipCall unit
| microsteps (n : Z) : ChipCall unit
| rms_current (mA : Z) : ChipCall unit.

(** The chip handle is a parameter of the development: any type of chip
    states with a deterministic reaction to each call. *)
Class TMC2130Stepper (Chip : Type) : Type :=
  { call : forall {R : Type}, ChipCall R -> Chip -> R * Chip }.

(** ** The trace of calls on the peripherals *)

Inductive Event : Type :=
| EvStepOn                                   (* stepCls::on() *)
| EvStepOff                                  (* stepCls::off() *)
| EvDirSet (d : bool)                        (* dirCls::set(d) *)
| EvEnableOn                                 (* enableCls::on() *)
| EvEnableOff                                (* enableCls::off() *)
| EvUpdate (e : ptr) (triggered : bool)      (* e->update() *)
| EvPrintF (text : string)                   (* Com::printF *)
| EvPrintFLN (text : string)                 (* Com::printFLN(text) *)
| EvPrintFLNval (text : string) (v : Z)      (* Com::printFLN(text, v) *)
| EvDelay (us : Z)                           (* HAL::delayMicroseconds *)
| EvChip {R : Type} (c : ChipCall R) (r : R) (* driver.c(...) returning r *).

(** Classification of events, for counting. *)
Definition is_step_on (e : Event) : bool :=
  match e with EvStepOn => true | _ => false end.
Definition is_update (e : Event) : bool :=
  match e with EvUpdate _ _ => true | _ => false end.
Definition is_update_of (p : ptr) (e : Event) : bool :=
  match e with EvUpdate q _ => Nat.eqb p q | _ => false end.
Definition is_enable_on (e : Event) : bool :=
  match e with EvEnableOn => true | _ => false end.
Definition is_delay (e : Event) : bool :=
  match e with EvDelay _ => true | _ => false end.
Definition is_stst_poll (e : Event) : bool :=
  match e with EvChip stst _ => true | _ => false end.
(** Calls that send a value to the chip. *)
Definition is_chip_write (e : Event) : bool :=
  match e with
  | EvChip (reg_set _ _) _ | EvChip (I_scale_analog _) _
  | EvChip (interpolate _) _ | EvChip (internal_Rsense _) _
  | EvChip (sgt _) _ | EvChip (diag1_stall _) _
  | EvChip (microsteps _) _ | EvChip (rms_current _) _ => true
  | _ => false
  end.
Definition is_chip_read (e : Event) : bool :=
  match e with EvChip (reg_get _) _ => true | _ => false end.
Definition is_microsteps_write (n : Z) (e : Event) : bool :=
  match e with EvChip (microsteps k) _ => Z.eqb k n | _ => false end.
Definition is_rms_current_write (n : Z) (e : Event) : bool :=
  match e with EvChip (rms_current k) _ => Z.eqb k n | _ => false end.
Definition is_wait_event (e : Event) : bool :=
  is_stst_poll e || is_delay e.

Definition count (p : Event -> bool) (l : list Event) : nat :=
  List.length (List.filter p l).

(** ** The machine around a driver *)

Record Machine (E : Type) : Type := mkMachine
  { step_pin : bool;            (* level driven by stepCls *)
    dir_pin : bool;             (* level driven by dirCls *)
    enable_pin : bool;          (* true after enableCls::on() *)
    endstops : ptr -> E;        (* the endstop objects, by address *)
    trace : list Event }.       (* oldest call first *)
Arguments mkMachine {E}.
Arguments step_pin {E}.
Arguments dir_pin {E}.
Arguments enable_pin {E}.
Arguments endstops {E}.
Arguments trace {E}.

Section Peripherals.
Context {E : Type} `{EndstopDriver E}.

Definition log (e : Event) (m : Machine E) : Machine E :=
  mkMachine (step_pin m) (dir_pin m) (enable_pin m) (endstops m)
            (trace m ++ [e]).

Definition stepCls_on : St (Machine E) unit := fun m =>
  (tt, log EvStepOn
         (mkMachine true (dir_pin m) (enable_pin m) (endstops m) (trace m))).
Definition stepCls_off : St (Machine E) unit := fun m =>
  (tt, log EvStepOff
         (mkMachine false (dir_pin m) (enable_pin m) (endstops m) (trace m))).
Definition dirCls_set (d : bool) : St (Machine E) unit := fun m =>
  (tt, log (EvDirSet d)
         (mkMachine (step_pin m) d (enable_pin m) (endstops m) (trace m))).
Definition enableCls_on : St (Machine E) unit := fun m =>
  (tt, log EvEnableOn
         (mkMachine (step_pin m) (dir_pin m) true (endstops m) (trace m))).
Definition enableCls_off : St (Machine E) unit := fun m =>
  (tt, log EvEnableOff
         (mkMachine (step_pin m) (dir_pin m) false (endstops m) (trace m))).

(** Replace the object at address [p]. *)
Definition store (p : ptr) (e : E) (h : ptr -> E) : ptr -> E :=
  fun q => if Nat.eqb p q then e else h q.

(** [p->update()] on the endstop object at address [p]. *)
Definition endstop_update (p : ptr) : St (Machine E) bool := fun m =>
  let r := update (endstops m p) in
  (fst r,
   log (EvUpdate p (fst r))
     (mkMachine (step_pin m) (dir_pin m) (enable_pin m)
                (store p (snd r) (endstops m)) (trace m))).

Definition Com_printF (text : string) : St (Machine E) unit := fun m =>
  (tt, log (EvPrintF text) m).
Definition Com_printFLN (text : string) : St (Machine E) unit := fun m =>
  (tt, log (EvPrintFLN text) m).
Definition Com_printFLN_val (text : string) (v : Z) : St (Machine E) unit :=
  fun m => (tt, log (EvPrintFLNval text v) m).
Definition HAL_delayMicroseconds (us : Z) : St (Machine E) unit := fun m =>
  (tt, log (EvDelay us) m).

(** A method runs on its object and the machine; [hw] runs a peripheral
    call from inside a method. *)
Definition hw {Self A} (f : St (Machine E) A) : St (Self * Machine E) A :=
  fun s => let r := f (snd s) in (fst r, (fst s, snd r)).
End Peripherals.

(** ** class StepperDriverBase *)

Module StepperDriverBase.
Record t : Type := mk
  { minEndstop : ptr;
    maxEndstop : ptr;
    direction : bool }.

(** The constructor: [direction(true)]. *)
Definition new (minES maxES : ptr) : t := mk minES maxES true.

Definition set_direction (d : bool) (b : t) : t :=
  mk (minEndstop b) (maxEndstop b) d.

Section Defaults.
Context {E : Type} `{EndstopDriver E} {Self : Type}.
Definition getMinEndstop (b : t) : ptr := minEndstop b.
Definition getMaxEndstop (b : t) : ptr := maxEndstop b.
(** The bodies of the virtual functions that have one. *)
Definition init : St (Self * Machine E) bool := ret true.
Definition implementSetMicrosteps : bool := false.
Definition implementSetMaxCurrent : bool := false.
Definition setMicrosteps (_ : Z) : St (Self * Machine E) unit := ret tt.
Definition setMotorCurrent (_ : Z) : St (Self * Machine E) unit := ret tt.
Definition setMotorCurrentPercent (_ : Z) : St (Self * Machine E) unit :=
    ret tt.
Definition beforeHoming : St (Self * Machine E) unit := ret tt.
Definition afterHoming : St (Self * Machine E) unit := ret tt.
Definition status : St (Self * Machine E) unit :=
    hw (Com_printFLN "not implemented").
End Defaults.
End StepperDriverBase.

(** ** class SimpleStepperDriver *)

Module SimpleStepperDriver.
Import StepperDriverBase.
Local Open Scope st_scope.

(** No member beyond those of the base class. *)
Definition t : Type := StepperDriverBase.t.

Section Methods.
Context {E : Type} `{EndstopDriver E}.
Local Abbreviation M := (St (t * Machine E)).

Definition this : M t := fun s => (fst s, s).
Definition assign_direction (d : bool) : M unit := fun s =>
    (tt, (set_direction d (fst s), snd s)).

Definition new (minES maxES : ptr) : t := StepperDriverBase.new minES maxES.

Definition stepCond : M bool :=
    self <- this ;;
    if direction self then
      triggered <- hw (endstop_update (maxEndstop self)) ;;
      if negb triggered then
        hw stepCls_on ;; ret false
      else ret true
    else
      triggered <- hw (endstop_update (minEndstop self)) ;;
      if negb triggered then
        hw stepCls_on ;; ret false
      else ret true.

Definition step : M unit := hw stepCls_on.
Definition unstep : M unit := hw stepCls_off.
Definition dir (d : bool) : M unit :=
    hw (dirCls_set d) ;; assign_direction d.
Definition enable : M unit := hw enableCls_on.
Definition disable : M unit := hw enableCls_off.
End Methods.
End SimpleStepperDriver.

(** ** The macros WAIT_UNTIL and TRINAMIC_WAIT_FOR_STANDSTILL *)

Definition TRINAMIC_WAIT_RESOLUTION_uS : Z := 100.

Section WaitUntil.
Context {E : Type} `{EndstopDriver E} {Self : Type}.

(** [for (uint16_t count = ...; !condition || count < (timeout * 1000 /
    TRINAMIC_WAIT_RESOLUTION_uS); count++) { HAL::delayMicroseconds(...); }]
    from the value [count] on.  [condition] is the macro's argument, an
    expression evaluated again at every test; [fuel] bounds the number of
    tests.  The bound is computed in [int], taken to be 32 bits wide as on
    the boards this firmware targets, where it does not overflow for the
    timeouts used; [count] is converted back to [uint16_t] by [count++]. *)
Fixpoint WAIT_UNTIL_from (condition : St (Self * Machine E) bool)
    (timeout : Z) (fuel : nat) (count : Z) : Dv (Self * Machine E) unit :=
  fun s =>
    match fuel with
    | O => None
    | S fuel' =>
      let c := condition s in
      if negb (fst c)
         || (count <? Z.quot (timeout * 1000) TRINAMIC_WAIT_RESOLUTION_uS)
      then
        let d := hw (HAL_delayMicroseconds TRINAMIC_WAIT_RESOLUTION_uS) (snd c) in
        WAIT_UNTIL_from condition timeout fuel' (uint16 (count + 1)) (snd d)
      else Some (tt, snd c)
    end.

Definition WAIT_UNTIL (condition : St (Self * Machine E) bool)
    (timeout : Z) (fuel : nat) : Dv (Self * Machine E) unit :=
  WAIT_UNTIL_from condition timeout fuel 0.
End WaitUntil.

(** ** class TMC2130StepperDriver *)

(** The anonymous struct of the member [backup]. *)
Module RegisterBackup.
Record t : Type := mk
  { GCONF : Z;
    CHOPCONF : Z;
    COOLCONF : Z;
    PWMCONF : Z;
    TCOOLTHRS : Z;
    TPWMTHRS : Z }.

(** Assignment to one field. *)
Definition set_GCONF (v : Z) (b : t) : t :=
  mk v (CHOPCONF b) (COOLCONF b) (PWMCONF b) (TCOOLTHRS b) (TPWMTHRS b).
Definition set_CHOPCONF (v : Z) (b : t) : t :=
  mk (GCONF b) v (COOLCONF b) (PWMCONF b) (TCOOLTHRS b) (TPWMTHRS b).
Definition set_COOLCONF (v : Z) (b : t) : t :=
  mk (GCONF b) (CHOPCONF b) v (PWMCONF b) (TCOOLTHRS b) (TPWMTHRS b).
Definition set_PWMCONF (v : Z) (b : t) : t :=
  mk (GCONF b) (CHOPCONF b) (COOLCONF b) v (TCOOLTHRS b) (TPWMTHRS b).
Definition set_TCOOLTHRS (v : Z) (b : t) : t :=
  mk (GCONF b) (CHOPCONF b) (COOLCONF b) (PWMCONF b) v (TPWMTHRS b).
Definition set_TPWMTHRS (v : Z) (b : t) : t :=
  mk (GCONF b) (CHOPCONF b) (COOLCONF b) (PWMCONF b) (TCOOLTHRS b) v.
End RegisterBackup.

Module TMC2130StepperDriver.
Import StepperDriverBase.

Record t (Chip : Type) : Type := mk
  { base : StepperDriverBase.t;
    driver : Chip;
    backup : RegisterBackup.t }.
Arguments mk {Chip}.
Arguments base {Chip}.
Arguments driver {Chip}.
Arguments backup {Chip}.

Section Methods.
Context {E : Type} `{EndstopDriver E} {Chip : Type} `{TMC2130Stepper Chip}.
Local Abbreviation M := (St (t Chip * Machine E)).

Definition this : M (t Chip) := fun s => (fst s, s).
Definition assign_direction (d : bool) : M unit := fun s =>
  (tt, (mk (set_direction d (base (fst s))) (driver (fst s)) (backup (fst s)),
        snd s)).
(** [backup.FIELD = v] and the value of [backup.FIELD]. *)
Definition assign_backup (set : Z -> RegisterBackup.t -> RegisterBackup.t)
    (v : Z) : M unit := fun s =>
  (tt, (mk (base (fst s)) (driver (fst s)) (set v (backup (fst s))), snd s)).
Definition backup_field (field : RegisterBackup.t -> Z) : M Z := fun s =>
  (field (backup (fst s)), s).

(** [driver.c(...)]: the call goes to the chip handle and is traced. *)
Definition driver_call {R : Type} (c : ChipCall R) : M R := fun s =>
  let r := call c (driver (fst s)) in
  (fst r,
   (mk (base (fst s)) (snd r) (backup (fst s)),
    log (EvChip c (fst r)) (snd s))).

(** The register getters return [uint32_t]. *)
Definition driver_reg (r : Register) : M Z := fun s =>
  let x := driver_call (reg_get r) s in (uint32 (fst x), snd x).

(** The constructor leaves [backup] uninitialised: whatever it holds is
    passed in as [junk]. *)
Definition new (minES maxES : ptr) (chip : Chip) (junk : RegisterBackup.t)
  : t Chip :=
  mk (StepperDriverBase.new minES maxES) chip junk.

Definition TRINAMIC_WAIT_FOR_STANDSTILL (timeout : Z) (fuel : nat)
  : Dv (t Chip * Machine E) unit :=
  WAIT_UNTIL (driver_call stst) timeout fuel.

Definition stepCond : M bool :=
  (self <- this ;;
   if direction (base self) then
     triggered <- hw (endstop_update (maxEndstop (base self))) ;;
     if negb triggered then
       hw stepCls_on ;; ret false
     else ret true
   else
     triggered <- hw (endstop_update (minEndstop (base self))) ;;
     if negb triggered then
       hw stepCls_on ;; ret false
     else ret true)%st.

Definition step : M unit := hw stepCls_on.
Definition unstep : M unit := hw stepCls_off.
Definition dir (d : bool) : M unit :=
  (hw (dirCls_set d) ;; assign_direction d)%st.
Definition enable : M unit := hw enableCls_on.
Definition disable : M unit := hw enableCls_off.

Definition init (fuel : nat) : Dv (t Chip * Machine E) bool :=
  (total (hw (Com_printF "TMC2130 initialization...")) ;;
   total (hw enableCls_off) ;;
   total (driver_call begin) ;;
   total (driver_call test_connection) ;;
   result <- total (driver_call test_connection) ;;
   if negb (result =? 0) then
     total (hw (Com_printFLN "SPI error")) ;;
     retD false
   else
     v <- total (driver_call version) ;;
     total (hw (Com_printFLN_val "chip version " v)) ;;
     TRINAMIC_WAIT_FOR_STANDSTILL 100 fuel ;;
     total (driver_call (I_scale_analog true)) ;;
     total (driver_call (interpolate false)) ;;
     total (driver_call (internal_Rsense false)) ;;
     total (driver_call (sgt 0)) ;;
     total (driver_call (diag1_stall true)) ;;
     total (hw enableCls_on) ;;
     retD true)%dv.

Definition implementSetMaxCurrent : bool := true.

Definition setMicrosteps (microsteps' : Z) (fuel : nat)
  : Dv (t Chip * Machine E) unit :=
  (TRINAMIC_WAIT_FOR_STANDSTILL 100 fuel ;;
   total (driver_call (microsteps microsteps')))%dv.

Definition setMotorCurrent (current : Z) (fuel : nat)
  : Dv (t Chip * Machine E) unit :=
  (TRINAMIC_WAIT_FOR_STANDSTILL 100 fuel ;;
   total (driver_call (rms_current current)))%dv.

Definition beforeHoming : M unit :=
  (v <- driver_reg GCONF ;; assign_backup RegisterBackup.set_GCONF v ;;
   v <- driver_reg CHOPCONF ;; assign_backup RegisterBackup.set_CHOPCONF v ;;
   v <- driver_reg COOLCONF ;; assign_backup RegisterBackup.set_COOLCONF v ;;
   v <- driver_reg PWMCONF ;; assign_backup RegisterBackup.set_PWMCONF v ;;
   v <- driver_reg TCOOLTHRS ;; assign_backup RegisterBackup.set_TCOOLTHRS v ;;
   v <- driver_reg TPWMTHRS ;; assign_backup RegisterBackup.set_TPWMTHRS v)%st.

Definition afterHoming : M unit :=
  (v <- backup_field RegisterBackup.GCONF ;; driver_call (reg_set GCONF v) ;;
   v <- backup_field RegisterBackup.CHOPCONF ;; driver_call (reg_set CHOPCONF v) ;;
   v <- backup_field RegisterBackup.COOLCONF ;; driver_call (reg_set COOLCONF v) ;;
   v <- backup_field RegisterBackup.PWMCONF ;; driver_call (reg_set PWMCONF v) ;;
   v <- backup_field RegisterBackup.TCOOLTHRS ;;
   driver_call (reg_set TCOOLTHRS v) ;;
   v <- backup_field RegisterBackup.TPWMTHRS ;;
   driver_call (reg_set TPWMTHRS v))%st.
End Methods.
End TMC2130StepperDriver.

(** ** Calls through a [StepperDriverBase*]: virtual dispatch *)

Inductive StepperDriver (Chip : Type) : Type :=
| Simple (d : SimpleStepperDriver.t)
| TMC2130 (d : TMC2130StepperDriver.t Chip).
Arguments Simple {Chip}.
Arguments TMC2130 {Chip}.

Section Dispatch.
Context {E : Type} `{EndstopDriver E} {Chip : Type} `{TMC2130Stepper Chip}.
Local Abbreviation Obj := (StepperDriver Chip).

(** The base-class part of an object. *)
Definition base_of (o : Obj) : StepperDriverBase.t :=
  match o with
  | Simple d => d
  | TMC2130 d => TMC2130StepperDriver.base d
  end.

(** Run the method of the dynamic class and put the object back. *)
Definition as_object {Self A} (inj : Self -> Obj)
    (r : A * (Self * Machine E)) : A * (Obj * Machine E) :=
  (fst r, (inj (fst (snd r)), snd (snd r))).
Definition as_objectD {Self A} (inj : Self -> Obj)
    (r : option (A * (Self * Machine E))) : option (A * (Obj * Machine E)) :=
  option_map (as_object inj) r.

Definition stepCond : St (Obj * Machine E) bool := fun s =>
  match fst s with
  | Simple d => as_object Simple (SimpleStepperDriver.stepCond (d, snd s))
  | TMC2130 d => as_object TMC2130 (TMC2130StepperDriver.stepCond (d, snd s))
  end.
Definition step : St (Obj * Machine E) unit := fun s =>
  match fst s with
  | Simple d => as_object Simple (SimpleStepperDriver.step (d, snd s))
  | TMC2130 d => as_object TMC2130 (TMC2130StepperDriver.step (d, snd s))
  end.
Definition unstep : St (Obj * Machine E) unit := fun s =>
  match fst s with
  | Simple d => as_object Simple (SimpleStepperDriver.unstep (d, snd s))
  | TMC2130 d => as_object TMC2130 (TMC2130StepperDriver.unstep (d, snd s))
  end.
Definition dir (b : bool) : St (Obj * Machine E) unit := fun s =>
  match fst s with
  | Simple d => as_object Simple (SimpleStepperDriver.dir b (d, snd s))
  | TMC2130 d => as_object TMC2130 (TMC2130StepperDriver.dir b (d, snd s))
  end.
Definition enable : St (Obj * Machine E) unit := fun s =>
  match fst s with
  | Simple d => as_object Simple (SimpleStepperDriver.enable (d, snd s))
  | TMC2130 d => as_object TMC2130 (TMC2130StepperDriver.enable (d, snd s))
  end.
Definition disable : St (Obj * Machine E) unit := fun s =>
  match fst s with
  | Simple d => as_object Simple (SimpleStepperDriver.disable (d, snd s))
  | TMC2130 d => as_object TMC2130 (TMC2130StepperDriver.disable (d, snd s))
  end.
Definition init (fuel : nat) : Dv (Obj * Machine E) bool := fun s =>
  match fst s with
  | Simple d => Some (as_object Simple (StepperDriverBase.init (d, snd s)))
  | TMC2130 d =>
    as_objectD TMC2130 (TMC2130StepperDriver.init fuel (d, snd s))
  end.
(** [TMC2130StepperDriver] declares no [implementSetMicrosteps]: the call
    reaches the body in the base class. *)
Definition implementSetMicrosteps (o : Obj) : bool :=
  match o with
  | Simple _ => StepperDriverBase.implementSetMicrosteps
  | TMC2130 _ => StepperDriverBase.implementSetMicrosteps
  end.
Definition implementSetMaxCurrent (o : Obj) : bool :=
  match o with
  | Simple _ => StepperDriverBase.implementSetMaxCurrent
  | TMC2130 _ => TMC2130StepperDriver.implementSetMaxCurrent
  end.
Definition setMicrosteps (n : Z) (fuel : nat) : Dv (Obj * Machine E) unit :=
  fun s =>
  match fst s with
  | Simple d =>
    Some (as_object Simple (StepperDriverBase.setMicrosteps n (d, snd s)))
  | TMC2130 d =>
    as_objectD TMC2130 (TMC2130StepperDriver.setMicrosteps n fuel (d, snd s))
  end.
Definition setMotorCurrent (n : Z) (fuel : nat) : Dv (Obj * Machine E) unit :=
  fun s =>
  match fst s with
  | Simple d =>
    Some (as_object Simple (StepperDriverBase.setMotorCurrent n (d, snd s)))
  | TMC2130 d =>
    as_objectD TMC2130 (TMC2130StepperDriver.setMotorCurrent n fuel (d, snd s))
  end.
(** Neither class overrides [setMotorCurrentPercent]. *)
Definition setMotorCurrentPercent (n : Z) : St (Obj * Machine E) unit :=
  fun s =>
  match fst s with
  | Simple d =>
    as_object Simple (StepperDriverBase.setMotorCurrentPercent n (d, snd s))
  | TMC2130 d =>
    as_object TMC2130 (StepperDriverBase.setMotorCurrentPercent n (d, snd s))
  end.
Definition beforeHoming : St (Obj * Machine E) unit := fun s =>
  match fst s with
  | Simple d => as_object Simple (StepperDriverBase.beforeHoming (d, snd s))
  | TMC2130 d =>
    as_object TMC2130 (TMC2130StepperDriver.beforeHoming (d, snd s))
  end.
Definition afterHoming : St (Obj * Machine E) unit := fun s =>
  match fst s with
  | Simple d => as_object Simple (StepperDriverBase.afterHoming (d, snd s))
  | TMC2130 d =>
    as_object TMC2130 (TMC2130StepperDriver.afterHoming (d, snd s))
  end.
End Dispatch.

(** ** Vocabulary of the statements *)

(** [emitted m m' evs]: going from [m] to [m'] added exactly [evs]. *)
Definition emitted {E : Type} (m m' : Machine E) (evs : list Event) : Prop :=
  trace m' = trace m ++ evs.

(** The endstop that [stepCond] consults for a given direction flag, and the
    other one. *)
Definition endstop_for (b : StepperDriverBase.t) : ptr :=
  if StepperDriverBase.direction b
  then StepperDriverBase.maxEndstop b
  else StepperDriverBase.minEndstop b.
Definition opposite_endstop (b : StepperDriverBase.t) : ptr :=
  if StepperDriverBase.direction b
  then StepperDriverBase.minEndstop b
  else StepperDriverBase.maxEndstop b.

Section ChipObservations.
Context {Chip : Type} `{TMC2130Stepper Chip}.

(** What reading register [r] returns in chip state [ch]. *)
Definition reg_value (r : Register) (ch : Chip) : Z :=
  uint32 (fst (call (reg_get r) ch)).

(** The six tracked registers of a chip state. *)
Definition registers (ch : Chip) : RegisterBackup.t :=
  RegisterBackup.mk (reg_value GCONF ch) (reg_value CHOPCONF ch)
    (reg_value COOLCONF ch) (reg_value PWMCONF ch)
    (reg_value TCOOLTHRS ch) (reg_value TPWMTHRS ch).

(** Modelled from the spec: the body of the register getters and setters of
    [TMC2130Stepper], which is not in this repository.  "Per-register
    getters/setters [...] (read returns current value, write takes a value,
    no return)": a read leaves the registers as they are, a write makes the
    register hold the value written (a [uint32_t]) and leaves the others. *)
Class RegisterFile : Prop :=
  { read_keeps : forall r r' ch,
      reg_value r' (snd (call (reg_get r) ch)) = reg_value r' ch;
    write_same : forall r v ch,
      reg_value r (snd (call (reg_set r v) ch)) = uint32 v;
    write_other : forall r r' v ch,
      r <> r' -> reg_value r' (snd (call (reg_set r v) ch)) = reg_value r' ch }.

(** The chip state after [k] polls of [stst()], and the answer to the next. *)
Fixpoint after_polls (k : nat) (ch : Chip) : Chip :=
  match k with
  | O => ch
  | S k' => after_polls k' (snd (call stst ch))
  end.
Definition stst_at (k : nat) (ch : Chip) : bool :=
  fst (call stst (after_polls k ch)).

(** The chip state after a call, and what the call returns. *)
Definition exec {R : Type} (c : ChipCall R) (ch : Chip) : Chip :=
  snd (call c ch).
Definition answer {R : Type} (c : ChipCall R) (ch : Chip) : R :=
  fst (call c ch).

(** The two connectivity tests of [init()], run after [begin()]. *)
Definition first_test (ch : Chip) : Z :=
  answer test_connection (exec begin ch).
Definition second_test (ch : Chip) : Z :=
  answer test_connection (exec test_connection (exec begin ch)).
Definition chip_tested (ch : Chip) : Chip :=
  exec test_connection (exec test_connection (exec begin ch)).

(** What [init()] does up to and including the second test. *)
Definition init_opening (ch : Chip) : list Event :=
  [ EvPrintF "TMC2130 initialization..."; EvEnableOff; EvChip begin tt;
    EvChip test_connection (first_test ch);
    EvChip test_connection (second_test ch) ].

(** The version report of [init()]. *)
Definition init_report (ch : Chip) : list Event :=
  [ EvChip version (answer version (chip_tested ch));
    EvPrintFLNval "chip version " (answer version (chip_tested ch)) ].

(** The five configuration writes of [init()], and the chip after them. *)
Definition init_configuration : list Event :=
  [ EvChip (I_scale_analog true) tt; EvChip (interpolate false) tt;
    EvChip (internal_Rsense false) tt; EvChip (sgt 0) tt;
    EvChip (diag1_stall true) tt ].
Definition configured (ch : Chip) : Chip :=
  exec (diag1_stall true)
    (exec (sgt 0)
       (exec (internal_Rsense false)
          (exec (interpolate false) (exec (I_scale_analog true) ch)))).

(** The test of the loop in WAIT_UNTIL when the condition evaluates to [b]:
    true means one more round. *)
Definition wait_test (timeout count : Z) (b : bool) : bool :=
  negb b || (count <? Z.quot (timeout * 1000) TRINAMIC_WAIT_RESOLUTION_uS).

(** [exits_after timeout k count ch]: the standstill wait started with counter
    [count] on chip state [ch] goes round exactly [k] times. *)
Fixpoint exits_after (timeout : Z) (k : nat) (count : Z) (ch : Chip) : bool :=
  let go := wait_test timeout count (fst (call stst ch)) in
  match k with
  | O => negb go
  | S k' => go && exits_after timeout k' (uint16 (count + 1)) (snd (call stst ch))
  end.

(** The events of [k] rounds of the standstill wait: a poll and a delay. *)
Fixpoint wait_rounds (k : nat) (ch : Chip) : list Event :=
  match k with
  | O => []
  | S k' =>
    EvChip stst (fst (call stst ch))
      :: EvDelay TRINAMIC_WAIT_RESOLUTION_uS
      :: wait_rounds k' (snd (call stst ch))
  end.
End ChipObservations.
Arguments RegisterFile Chip {_}.

(** The driver object with another chip state; the machine with more trace. *)
Definition with_chip {Chip : Type} (d : TMC2130StepperDriver.t Chip)
    (ch : Chip) : TMC2130StepperDriver.t Chip :=
  TMC2130StepperDriver.mk (TMC2130StepperDriver.base d) ch
    (TMC2130StepperDriver.backup d).
Definition with_trace {E : Type} (m : Machine E) (evs : list Event)
  : Machine E :=
  mkMachine (step_pin m) (dir_pin m) (enable_pin m) (endstops m)
            (trace m ++ evs).

Definition set_enable {E : Type} (b : bool) (m : Machine E) : Machine E :=
  mkMachine (step_pin m) (dir_pin m) b (endstops m) (trace m).

Section Outcomes.
Context {E : Type} {Chip : Type} `{TMC2130Stepper Chip}.
Local Abbreviation tmc := (TMC2130StepperDriver.t Chip).

(** Driver and machine when [init()] gives up. *)
Definition init_failed (d : tmc) (m : Machine E) : tmc * Machine E :=
  let ch := TMC2130StepperDriver.driver d in
  (with_chip d (chip_tested ch),
   with_trace (set_enable false m)
     (init_opening ch ++ [EvPrintFLN "SPI error"])).

(** The chip when the standstill wait of [init()] starts. *)
Definition chip_reported (ch : Chip) : Chip := exec version (chip_tested ch).

(** Driver and machine when [init()] succeeds after [k] rounds of waiting. *)
Definition init_done (k : nat) (d : tmc) (m : Machine E) : tmc * Machine E :=
  let ch := TMC2130StepperDriver.driver d in
  (with_chip d (configured (after_polls (S k) (chip_reported ch))),
   with_trace (set_enable true m)
     (init_opening ch ++ init_report ch
        ++ wait_rounds k (chip_reported ch) ++ [EvChip stst true]
        ++ init_configuration ++ [EvEnableOn])).

(** Driver and machine after a wait of [k] rounds followed by the call [c]. *)
Definition after_wait_and (c : ChipCall unit) (k : nat) (d : tmc)
    (m : Machine E) : tmc * Machine E :=
  let ch := TMC2130StepperDriver.driver d in
  (with_chip d (exec c (after_polls (S k) ch)),
   with_trace m (wait_rounds k ch ++ [EvChip stst true; EvChip c tt])).
End Outcomes.

Section HomingScript.
Context {E : Type} `{EndstopDriver E} {Chip : Type} `{TMC2130Stepper Chip}.

(** Register writes issued on the chip handle between [beforeHoming()] and
    [afterHoming()], in order. *)
Fixpoint write_registers (ws : list (Register * Z))
  : St (TMC2130StepperDriver.t Chip * Machine E) unit :=
  match ws with
  | [] => ret tt
  | w :: ws' =>
    bind (TMC2130StepperDriver.driver_call (reg_set (fst w) (snd w)))
         (fun _ => write_registers ws')
  end.

(** The chip after the reads of [beforeHoming()], one per tracked register in
    the order of the source, the events of these reads, and the values they
    put in [backup]. *)
Definition read_GCONF (ch : Chip) : Chip := exec (reg_get GCONF) ch.
Definition read_CHOPCONF (ch : Chip) : Chip :=
  exec (reg_get CHOPCONF) (read_GCONF ch).
Definition read_COOLCONF (ch : Chip) : Chip :=
  exec (reg_get COOLCONF) (read_CHOPCONF ch).
Definition read_PWMCONF (ch : Chip) : Chip :=
  exec (reg_get PWMCONF) (read_COOLCONF ch).
Definition read_TCOOLTHRS (ch : Chip) : Chip :=
  exec (reg_get TCOOLTHRS) (read_PWMCONF ch).
Definition read_TPWMTHRS (ch : Chip) : Chip :=
  exec (reg_get TPWMTHRS) (read_TCOOLTHRS ch).

Definition backup_reads (ch : Chip) : list Event :=
  [ EvChip (reg_get GCONF) (answer (reg_get GCONF) ch);
    EvChip (reg_get CHOPCONF) (answer (reg_get CHOPCONF) (read_GCONF ch));
    EvChip (reg_get COOLCONF) (answer (reg_get COOLCONF) (read_CHOPCONF ch));
    EvChip (reg_get PWMCONF) (answer (reg_get PWMCONF) (read_COOLCONF ch));
    EvChip (reg_get TCOOLTHRS) (answer (reg_get TCOOLTHRS) (read_PWMCONF ch));
    EvChip (reg_get TPWMTHRS)
      (answer (reg_get TPWMTHRS) (read_TCOOLTHRS ch)) ].

Definition snapshot (ch : Chip) : RegisterBackup.t :=
  RegisterBackup.mk
    (reg_value GCONF ch)
    (reg_value CHOPCONF (read_GCONF ch))
    (reg_value COOLCONF (read_CHOPCONF ch))
    (reg_value PWMCONF (read_COOLCONF ch))
    (reg_value TCOOLTHRS (read_PWMCONF ch))
    (reg_value TPWMTHRS (read_TCOOLTHRS ch)).

(** The chip after the six writes of [afterHoming()] with backup [b]. *)
Definition restored (b : RegisterBackup.t) (ch : Chip) : Chip :=
  exec (reg_set TPWMTHRS (RegisterBackup.TPWMTHRS b))
    (exec (reg_set TCOOLTHRS (RegisterBackup.TCOOLTHRS b))
       (exec (reg_set PWMCONF (RegisterBackup.PWMCONF b))
          (exec (reg_set COOLCONF (RegisterBackup.COOLCONF b))
             (exec (reg_set CHOPCONF (RegisterBackup.CHOPCONF b))
                (exec (reg_set GCONF (RegisterBackup.GCONF b)) ch))))).

(** The chip after a list of register writes, and their events. *)
Definition written (ws : list (Register * Z)) (ch : Chip) : Chip :=
  fold_left (fun c w => exec (reg_set (fst w) (snd w)) c) ws ch.
Definition write_events (ws : list (Register * Z)) : list Event :=
  map (fun w => EvChip (reg_set (fst w) (snd w)) tt) ws.
End HomingScript.

(** The events of the six writes of [afterHoming()] with backup [b]. *)
Definition restore_writes (b : RegisterBackup.t) : list Event :=
  [ EvChip (reg_set GCONF (RegisterBackup.GCONF b)) tt;
    EvChip (reg_set CHOPCONF (RegisterBackup.CHOPCONF b)) tt;
    EvChip (reg_set COOLCONF (RegisterBackup.COOLCONF b)) tt;
    EvChip (reg_set PWMCONF (RegisterBackup.PWMCONF b)) tt;
    EvChip (reg_set TCOOLTHRS (RegisterBackup.TCOOLTHRS b)) tt;
    EvChip (reg_set TPWMTHRS (RegisterBackup.TPWMTHRS b)) tt ].

(** The driver object with another backup record. *)
Definition with_backup {Chip : Type} (d : TMC2130StepperDriver.t Chip)
    (b : RegisterBackup.t) : TMC2130StepperDriver.t Chip :=
  TMC2130StepperDriver.mk (TMC2130StepperDriver.base d)
    (TMC2130StepperDriver.driver d) b.

(** ** Concrete collaborators, to run the drivers on *)

(** A switch endstop: [update()] reports its level and counts the polls. *)
Module Switch.
Record t : Type := mk { level : bool; polls : nat }.
#[global] Instance driver : EndstopDriver t :=
  {| update e := (level e, mk (level e) (S (polls e))) |}.
End Switch.

(** Modelled from the spec: a [TMC2130Stepper] handle, whose code is in an
    external library.  The chip is a file of six 32-bit registers ("read
    returns current value, write takes a value"); what the connectivity test,
    the version query and the standstill predicate answer is an input, given
    as the sequence of answers to successive queries.  The other setters
    are accepted and leave these fields alone. *)
Module SimChip.
Record t : Type := mk
  { regs : Register -> Z;
    connection : nat -> Z;     (* answers of successive test_connection() *)
    tested : nat;              (* number of connectivity tests so far *)
    chip_version : Z;
    standstill : nat -> bool;  (* answers of successive stst() *)
    polled : nat }.            (* number of standstill polls so far *)

Definition Register_eqb (a b : Register) : bool :=
  match a, b with
  | GCONF, GCONF | CHOPCONF, CHOPCONF | COOLCONF, COOLCONF
  | PWMCONF, PWMCONF | TCOOLTHRS, TCOOLTHRS | TPWMTHRS, TPWMTHRS => true
  | _, _ => false
  end.

Definition write (r : Register) (v : Z) (c : t) : t :=
  mk (fun q => if Register_eqb r q then uint32 v else regs c q)
     (connection c) (tested c) (chip_version c) (standstill c) (polled c).

Definition react {R : Type} (c : ChipCall R) (ch : t) : R * t :=
  match c in ChipCall R return R * t with
  | begin => (tt, ch)
  | test_connection =>
    (connection ch (tested ch),
     mk (regs ch) (connection ch) (S (tested ch)) (chip_version ch)
        (standstill ch) (polled ch))
  | version => (chip_version ch, ch)
  | stst =>
    (standstill ch (polled ch),
     mk (regs ch) (connection ch) (tested ch) (chip_version ch)
        (standstill ch) (S (polled ch)))
  | reg_get r => (regs ch r, ch)
  | reg_set r v => (tt, write r v ch)
  | I_scale_analog _ | interpolate _ | internal_Rsense _ | sgt _
  | diag1_stall _ | microsteps _ | rms_current _ => (tt, ch)
  end.

#[global] Instance handle : TMC2130Stepper t := {| call := @react |}.

(** A register file from six values. *)
Definition file (b : RegisterBackup.t) : Register -> Z := fun r =>
  match r with
  | GCONF => RegisterBackup.GCONF b
  | CHOPCONF => RegisterBackup.CHOPCONF b
  | COOLCONF => RegisterBackup.COOLCONF b
  | PWMCONF => RegisterBackup.PWMCONF b
  | TCOOLTHRS => RegisterBackup.TCOOLTHRS b
  | TPWMTHRS => RegisterBackup.TPWMTHRS b
  end.
End SimChip.

(** Concrete inputs used below. *)
Module Bench.
Definition zeros : RegisterBackup.t := RegisterBackup.mk 0 0 0 0 0 0.
(** The register values of the scenario in the specification. *)
Definition scenario : RegisterBackup.t := RegisterBackup.mk 1 2 3 4 5 6.
(** Chips that answer every connectivity test with [status] and every
    standstill poll with [still]. *)
Definition chip (status : Z) (still : bool) : SimChip.t :=
  SimChip.mk (SimChip.file scenario) (fun _ => status) 0%nat 17
             (fun _ => still) 0%nat.
(** A chip that reports standstill from poll [k] on. *)
Definition chip_still_from (k : nat) : SimChip.t :=
  SimChip.mk (SimChip.file scenario) (fun _ => 0) 0%nat 17
             (fun i => Nat.leb k i) 0%nat.
(** Endstop 0 is open, endstop 1 is triggered. *)
Definition machine : Machine Switch.t :=
  mkMachine false false false
    (fun p => Switch.mk (Nat.eqb p 1%nat) 0%nat) [].
Definition base (d : bool) : StepperDriverBase.t :=
  StepperDriverBase.mk 0%nat 1%nat d.
Definition tmc (status : Z) (still : bool)
  : TMC2130StepperDriver.t SimChip.t :=
  TMC2130StepperDriver.mk (base true) (chip status still) zeros.
End Bench.

(** ** Sequences of stepping calls *)

(** The calls a motion planner makes on a driver through the base class. *)
Inductive Op : Type :=
| OpStepCond
| OpStep
| OpUnstep
| OpDir (d : bool)
| OpEnable
| OpDisable.

Definition is_step_op (op : Op) : bool :=
  match op with OpStep => true | _ => false end.
Definition is_stepCond_op (op : Op) : bool :=
  match op with OpStepCond => true | _ => false end.
Definition is_dir_op (op : Op) : bool :=
  match op with OpDir _ => true | _ => false end.

(** The argument of the last [dir()] of a sequence, [d0] if there is none. *)
Definition last_dir (ops : list Op) (d0 : bool) : bool :=
  fold_left (fun d op => match op with OpDir d' => d' | _ => d end) ops d0.

(** The last of [enable()] (true) and [disable()] (false), [e0] if none. *)
Definition last_enable (ops : list Op) (e0 : bool) : bool :=
  fold_left (fun e op => match op with
                         | OpEnable => true
                         | OpDisable => false
                         | _ => e
                         end) ops e0.

Section Sequences.
Context {E : Type} `{EndstopDriver E} {Chip : Type} `{TMC2130Stepper Chip}.

(** One call; [stepCond()] is the only one that returns something. *)
Definition run_op (op : Op)
  : St (StepperDriver Chip * Machine E) (option bool) := fun s =>
  match op with
  | OpStepCond => let r := stepCond s in (Some (fst r), snd r)
  | OpStep => (None, snd (step s))
  | OpUnstep => (None, snd (unstep s))
  | OpDir d => (None, snd (dir d s))
  | OpEnable => (None, snd (enable s))
  | OpDisable => (None, snd (disable s))
  end.

(** A sequence of calls, with the results of its [stepCond()] calls. *)
Fixpoint run_ops (ops : list Op)
  : St (StepperDriver Chip * Machine E) (list bool) := fun s =>
  match ops with
  | [] => ([], s)
  | op :: ops' =>
    let r := run_op op s in
    let rs := run_ops ops' (snd r) in
    (match fst r with Some b => b :: fst rs | None => fst rs end, snd rs)
  end.

(** The object with another base-class part. *)
Definition with_base (o : StepperDriver Chip) (b : StepperDriverBase.t)
  : StepperDriver Chip :=
  match o with
  | Simple _ => Simple b
  | TMC2130 d =>
    TMC2130 (TMC2130StepperDriver.mk b (TMC2130StepperDriver.driver d)
               (TMC2130StepperDriver.backup d))
  end.
End Sequences.

Definition set_step {E : Type} (b : bool) (m : Machine E) : Machine E :=
  mkMachine b (dir_pin m) (enable_pin m) (endstops m) (trace m).
Definition set_dir {E : Type} (b : bool) (m : Machine E) : Machine E :=
  mkMachine (step_pin m) b (enable_pin m) (endstops m) (trace m).

(** [gated ok evs]: every [stepCls::on()] in [evs] comes right after a poll
    that reported "not triggered"; [ok] tells whether such a poll has just
    been made when [evs] starts. *)
Fixpoint gated (ok : bool) (evs : list Event) : bool :=
  match evs with
  | [] => true
  | EvStepOn :: evs' => ok && gated false evs'
  | EvUpdate _ t :: evs' => gated (negb t) evs'
  | _ :: evs' => gated false evs'
  end.

(** Every poll in [evs] is on one of the two endstops of [b]. *)
Definition polls_within (b : StepperDriverBase.t) (evs : list Event) : Prop :=
  forall p t, In (EvUpdate p t) evs ->
    p = StepperDriverBase.minEndstop b \/ p = StepperDriverBase.maxEndstop b.

(** ** The exit round of the standstill wait, in closed form *)

(** The sample budget of [WAIT_UNTIL(condition, timeout)]. *)
Definition wait_limit (timeout : Z) : Z :=
  Z.quot (timeout * 1000) TRINAMIC_WAIT_RESOLUTION_uS.

(** The value of [count] after [j] rounds, starting from [c]. *)
Fixpoint count_at (j : nat) (c : Z) : Z :=
  match j with
  | O => c
  | S j' => count_at j' (uint16 (c + 1))
  end.

(** [exit_round timeout k ch]: round [k] is the first in which the chip
    reports standstill while the 16-bit counter, which is the round number
    modulo 65536, has reached the budget. *)
Definition exit_round {Chip : Type} `{TMC2130Stepper Chip}
    (timeout : Z) (k : nat) (ch : Chip) : Prop :=
  stst_at k ch = true /\
  wait_limit timeout <= Z.of_nat k mod 65536 /\
  forall j, (j < k)%nat ->
    stst_at j ch = false \/ Z.of_nat j mod 65536 < wait_limit timeout.

(** * Properties *)

(** ** What a call adds to the trace *)

Section Observations.
Context {E : Type}.

Lemma emitted_inj (m m' : Machine E) (e1 e2 : list Event) :
  emitted m m' e1 -> emitted m m' e2 -> e1 = e2.
Proof. unfold emitted. intros -> H. now apply app_inv_head in H. Qed.
End Observations.

Lemma count_app (p : Event -> bool) (l1 l2 : list Event) :
  count p (l1 ++ l2) = (count p l1 + count p l2)%nat.
Proof. unfold count. now rewrite filter_app, length_app. Qed.

Ltac run_method :=
  cbv [stepCond dir step unstep enable disable as_object fst snd
       SimpleStepperDriver.stepCond TMC2130StepperDriver.stepCond
       SimpleStepperDriver.dir TMC2130StepperDriver.dir
       SimpleStepperDriver.this TMC2130StepperDriver.this
       SimpleStepperDriver.assign_direction
       TMC2130StepperDriver.assign_direction
       StepperDriverBase.set_direction
       bind ret hw endstop_update stepCls_on dirCls_set log
       base_of endstop_for emitted
       StepperDriverBase.direction StepperDriverBase.minEndstop
       StepperDriverBase.maxEndstop TMC2130StepperDriver.base
       trace endstops step_pin dir_pin enable_pin].

Section EndstopCheck.
Context {E : Type} `{EndstopDriver E} {Chip : Type} `{TMC2130Stepper Chip}.

(** [stepCond()] as a function of the selected endstop. *)
Lemma stepCond_run (o : StepperDriver Chip) (m : Machine E) :
  let p := endstop_for (base_of o) in
  let u := update (endstops m p) in
  stepCond (o, m) =
  (fst u,
   (o, mkMachine (if fst u then step_pin m else true) (dir_pin m)
         (enable_pin m) (store p (snd u) (endstops m))
         (trace m ++ EvUpdate p (fst u) :: if fst u then [] else [EvStepOn]))).
Proof.
  destruct o as [[mn mx [|]]|[[mn mx [|]] ch bk]]; run_method;
    match goal with
    | |- context [update ?e] => destruct (update e) as [[|] e']
    end; cbn; rewrite <- ?app_assoc; reflexivity.
Qed.

(** C1.  For both driver classes and every state of the endstops:
    [stepCond()] polls the endstop of the current direction ([maxEndstop] when
    [direction] is true, [minEndstop] when it is false) and returns what that
    endstop reports.  When the endstop reports triggered, the poll is all
    that happens: no step pulse.  When it does not, the poll is followed by
    exactly one [stepCls::on()]. *)
Theorem stepCond_gates_on_endstop (o : StepperDriver Chip) (m : Machine E) :
  let p := if StepperDriverBase.direction (base_of o)
           then StepperDriverBase.maxEndstop (base_of o)
           else StepperDriverBase.minEndstop (base_of o) in
  let triggered := fst (update (endstops m p)) in
  let r := stepCond (o, m) in
  let evs := EvUpdate p triggered :: if triggered then [] else [EvStepOn] in
  fst r = triggered /\
  emitted m (snd (snd r)) evs /\
  count is_step_on evs = (if triggered then 0%nat else 1%nat) /\
  step_pin (snd (snd r)) = (if triggered then step_pin m else true).
Proof.
  cbv zeta. rewrite stepCond_run. cbv zeta. unfold endstop_for, emitted.
  cbn [fst snd trace step_pin].
  destruct (update _) as [[|] e']; cbn [fst]; repeat split.
Qed.
End EndstopCheck.

Section Direction.
Context {E : Type} `{EndstopDriver E} {Chip : Type} `{TMC2130Stepper Chip}.

(** C8.  One call of [stepCond()], on either driver class, makes exactly one
    call of [update()]: on the endstop selected by the current direction.  No
    other endstop object is polled or changed; in particular the endstop of
    the opposite direction, when it is another object, is left alone. *)
Theorem stepCond_polls_one_endstop (o : StepperDriver Chip) (m : Machine E)
    (q : ptr) (Hq : q <> endstop_for (base_of o)) :
  let m' := snd (snd (stepCond (o, m))) in
  exists evs t,
    emitted m m' evs /\
    count is_update evs = 1%nat /\
    List.filter is_update evs = [EvUpdate (endstop_for (base_of o)) t] /\
    count (is_update_of q) evs = 0%nat /\
    endstops m' q = endstops m q.
Proof.
  cbn zeta. rewrite stepCond_run. cbn zeta.
  set (p := endstop_for (base_of o)) in *.
  destruct (update (endstops m p)) as [t e'].
  exists (EvUpdate p t :: if t then [] else [EvStepOn]), t.
  assert (Hpq : Nat.eqb p q = false) by (apply Nat.eqb_neq; congruence).
  assert (Hqp : Nat.eqb q p = false) by (apply Nat.eqb_neq; congruence).
  cbn [fst snd trace endstops]. unfold emitted, store, count.
  destruct t; cbn; rewrite ?Hpq, ?Hqp; cbn; auto.
Qed.

(** C6.  After [dir(d)], on either driver class, the direction flag is [d],
    the direction pin has been set to [d] and the endstop pointers are the
    same; the next [stepCond()] then polls [maxEndstop] if [d] is true and
    [minEndstop] if [d] is false, and no other endstop, whatever the direction
    was before. *)
Theorem dir_selects_endstop (o : StepperDriver Chip) (m : Machine E)
    (d : bool) :
  let s := snd (dir d (o, m)) in
  let p := if d then StepperDriverBase.maxEndstop (base_of o)
           else StepperDriverBase.minEndstop (base_of o) in
  let t := fst (update (endstops m p)) in
  StepperDriverBase.direction (base_of (fst s)) = d /\
  StepperDriverBase.minEndstop (base_of (fst s))
    = StepperDriverBase.minEndstop (base_of o) /\
  StepperDriverBase.maxEndstop (base_of (fst s))
    = StepperDriverBase.maxEndstop (base_of o) /\
  emitted m (snd s) [EvDirSet d] /\
  dir_pin (snd s) = d /\
  fst (stepCond s) = t /\
  emitted (snd s) (snd (snd (stepCond s)))
    (EvUpdate p t :: if t then [] else [EvStepOn]).
Proof.
  destruct o as [[mn mx d0]|[[mn mx d0] ch bk]]; cbn zeta;
    (repeat split; try reflexivity);
    destruct d; run_method;
    match goal with
    | |- context [update ?e] => destruct (update e) as [[|] e']
    end; cbn; rewrite <- ?app_assoc; reflexivity.
Qed.
End Direction.

(** A run toward max with endstop 1 triggered: the min endstop, object 0, is
    not polled. *)
Lemma stepCond_polls_one_endstop_witness :
  let o : StepperDriver SimChip.t := Simple (Bench.base true) in
  let q := opposite_endstop (base_of o) in
  let m' := snd (snd (stepCond (o, Bench.machine))) in
  q <> endstop_for (base_of o) /\
  exists evs t,
    emitted Bench.machine m' evs /\
    count is_update evs = 1%nat /\
    List.filter is_update evs = [EvUpdate (endstop_for (base_of o)) t] /\
    count (is_update_of q) evs = 0%nat /\
    endstops m' q = endstops Bench.machine q.
Proof.
  cbn zeta. split.
  - cbv. discriminate.
  - apply (stepCond_polls_one_endstop (Simple (Bench.base true))
             Bench.machine (opposite_endstop (Bench.base true))).
    cbv. discriminate.
Defined.

(** ** The standstill wait *)

Section StandstillWait.
Context {E : Type} `{EndstopDriver E} {Chip : Type} `{TMC2130Stepper Chip}.
Local Abbreviation tmc := (TMC2130StepperDriver.t Chip).

Lemma with_chip_same (d : tmc) : with_chip d (TMC2130StepperDriver.driver d) = d.
Proof. now destruct d. Qed.

Lemma with_trace_nil (m : Machine E) : with_trace m [] = m.
Proof. destruct m. unfold with_trace. cbn. now rewrite app_nil_r. Qed.

Lemma with_trace_app (m : Machine E) (e1 e2 : list Event) :
  with_trace (with_trace m e1) e2 = with_trace m (e1 ++ e2).
Proof. unfold with_trace. cbn. now rewrite app_assoc. Qed.

Lemma wait_unfold (timeout : Z) (fuel : nat) (count : Z) (d : tmc)
    (m : Machine E) :
  WAIT_UNTIL_from (TMC2130StepperDriver.driver_call stst) timeout (S fuel)
    count (d, m) =
  let ch := TMC2130StepperDriver.driver d in
  let b := fst (call stst ch) in
  if wait_test timeout count b
  then WAIT_UNTIL_from (TMC2130StepperDriver.driver_call stst) timeout fuel
         (uint16 (count + 1))
         (with_chip d (snd (call stst ch)),
          with_trace m [EvChip stst b; EvDelay TRINAMIC_WAIT_RESOLUTION_uS])
  else Some (tt, (with_chip d (snd (call stst ch)),
                  with_trace m [EvChip stst b])).
Proof.
  cbn [WAIT_UNTIL_from]. cbv zeta.
  unfold wait_test, TMC2130StepperDriver.driver_call, hw,
    HAL_delayMicroseconds, log, with_chip, with_trace.
  cbn [fst snd trace step_pin dir_pin enable_pin endstops
       TMC2130StepperDriver.base TMC2130StepperDriver.driver
       TMC2130StepperDriver.backup].
  rewrite <- app_assoc. reflexivity.
Qed.

(** A chip that never reports standstill keeps the wait going for ever. *)
Lemma wait_never_still (timeout : Z) (fuel : nat) :
  forall (count : Z) (d : tmc) (m : Machine E),
    (forall k, stst_at k (TMC2130StepperDriver.driver d) = false) ->
    WAIT_UNTIL_from (TMC2130StepperDriver.driver_call stst) timeout fuel
      count (d, m) = None.
Proof.
  induction fuel as [|fuel IH]; intros count d m Hnever; [reflexivity|].
  rewrite wait_unfold. cbv zeta.
  pose proof (Hnever 0%nat) as Hfirst. unfold stst_at in Hfirst.
  cbn in Hfirst. rewrite Hfirst. unfold wait_test. cbn [negb orb].
  apply IH. intros k. exact (Hnever (S k)).
Qed.

(** When the wait goes round exactly [k] times, any fuel above [k] runs it
    to its end: [k] rounds of poll and delay, and the poll that ends it. *)
Lemma wait_exits (timeout : Z) (k : nat) :
  forall (fuel : nat) (count : Z) (d : tmc) (m : Machine E),
    exits_after timeout k count (TMC2130StepperDriver.driver d) = true ->
    (k < fuel)%nat ->
    WAIT_UNTIL_from (TMC2130StepperDriver.driver_call stst) timeout fuel
      count (d, m) =
    Some (tt, (with_chip d (after_polls (S k) (TMC2130StepperDriver.driver d)),
               with_trace m
                 (wait_rounds k (TMC2130StepperDriver.driver d)
                  ++ [EvChip stst true]))).
Proof.
  induction k as [|k IH]; intros fuel count d m Hex Hfuel;
    (destruct fuel as [|fuel]; [lia|]); rewrite wait_unfold; cbv zeta;
    cbn [exits_after] in Hex.
  - apply negb_true_iff in Hex. rewrite Hex.
    unfold wait_test in Hex. apply orb_false_iff in Hex.
    destruct Hex as [Hb _]. apply negb_false_iff in Hb. rewrite Hb.
    reflexivity.
  - apply andb_true_iff in Hex. destruct Hex as [Hgo Hex]. rewrite Hgo.
    rewrite (IH fuel); [ | exact Hex | lia ].
    rewrite with_trace_app. reflexivity.
Qed.

(** Conversely, a wait that ends went round some [k] times, [k] below the
    fuel. *)
Lemma wait_ended (timeout : Z) (fuel : nat) :
  forall (count : Z) (d : tmc) (m : Machine E) r,
    WAIT_UNTIL_from (TMC2130StepperDriver.driver_call stst) timeout fuel
      count (d, m) = Some r ->
    exists k, (k < fuel)%nat /\
      exits_after timeout k count (TMC2130StepperDriver.driver d) = true.
Proof.
  induction fuel as [|fuel IH]; intros count d m r Hr; [discriminate|].
  rewrite wait_unfold in Hr. cbv zeta in Hr.
  destruct (wait_test timeout count
              (fst (call stst (TMC2130StepperDriver.driver d)))) eqn:Hgo.
  - apply IH in Hr. destruct Hr as [k [Hk Hex]].
    exists (S k). split; [lia|]. cbn [exits_after]. rewrite Hgo.
    exact Hex.
  - exists 0%nat. split; [lia|]. cbn [exits_after]. now rewrite Hgo.
Qed.

(** Every round of the wait is a poll or a delay. *)
Lemma wait_rounds_are_waiting (k : nat) :
  forall ch : Chip, forallb is_wait_event (wait_rounds k ch) = true.
Proof. induction k as [|k IH]; intros ch; cbn; auto. Qed.

Lemma wait_rounds_delays (k : nat) :
  forall ch : Chip, count is_delay (wait_rounds k ch) = k.
Proof.
  induction k as [|k IH]; intros ch; [reflexivity|].
  cbn [wait_rounds]. unfold count in *. cbn. now rewrite IH.
Qed.
End StandstillWait.

(** ** Running the methods of TMC2130StepperDriver step by step *)

Section Steps.
Context {E : Type} `{EndstopDriver E} {Chip : Type} `{TMC2130Stepper Chip}.
Local Abbreviation tmc := (TMC2130StepperDriver.t Chip).
Local Abbreviation S := (tmc * Machine E)%type.

Lemma driver_with_chip (d : tmc) (ch : Chip) :
  TMC2130StepperDriver.driver (with_chip d ch) = ch.
Proof. reflexivity. Qed.

Lemma with_chip_twice (d : tmc) (c1 c2 : Chip) :
  with_chip (with_chip d c1) c2 = with_chip d c2.
Proof. reflexivity. Qed.

Lemma set_enable_with_trace (b : bool) (m : Machine E) (evs : list Event) :
  set_enable b (with_trace m evs) = with_trace (set_enable b m) evs.
Proof. reflexivity. Qed.

Lemma set_enable_twice (b b' : bool) (m : Machine E) :
  set_enable b (set_enable b' m) = set_enable b m.
Proof. reflexivity. Qed.

Lemma answer_unit (c : ChipCall unit) (ch : Chip) : answer c ch = tt.
Proof. now destruct (answer c ch). Qed.

Lemma run_printF {B} (text : string) (k : unit -> Dv S B) (d : tmc)
    (m : Machine E) :
  bindD (total (hw (Com_printF text))) k (d, m)
  = k tt (d, with_trace m [EvPrintF text]).
Proof. reflexivity. Qed.

Lemma run_printFLN {B} (text : string) (k : unit -> Dv S B) (d : tmc)
    (m : Machine E) :
  bindD (total (hw (Com_printFLN text))) k (d, m)
  = k tt (d, with_trace m [EvPrintFLN text]).
Proof. reflexivity. Qed.

Lemma run_printFLN_val {B} (text : string) (v : Z) (k : unit -> Dv S B)
    (d : tmc) (m : Machine E) :
  bindD (total (hw (Com_printFLN_val text v))) k (d, m)
  = k tt (d, with_trace m [EvPrintFLNval text v]).
Proof. reflexivity. Qed.

Lemma run_enable_off {B} (k : unit -> Dv S B) (d : tmc) (m : Machine E) :
  bindD (total (hw enableCls_off)) k (d, m)
  = k tt (d, with_trace (set_enable false m) [EvEnableOff]).
Proof. reflexivity. Qed.

Lemma run_enable_on {B} (k : unit -> Dv S B) (d : tmc) (m : Machine E) :
  bindD (total (hw enableCls_on)) k (d, m)
  = k tt (d, with_trace (set_enable true m) [EvEnableOn]).
Proof. reflexivity. Qed.

Lemma run_call {R B} (c : ChipCall R) (k : R -> Dv S B) (d : tmc)
    (m : Machine E) :
  bindD (total (TMC2130StepperDriver.driver_call c)) k (d, m)
  = k (answer c (TMC2130StepperDriver.driver d))
      (with_chip d (exec c (TMC2130StepperDriver.driver d)),
       with_trace m [EvChip c (answer c (TMC2130StepperDriver.driver d))]).
Proof. reflexivity. Qed.

Lemma run_last_call {R} (c : ChipCall R) (d : tmc) (m : Machine E) :
  total (TMC2130StepperDriver.driver_call c) (d, m)
  = Some (answer c (TMC2130StepperDriver.driver d),
          (with_chip d (exec c (TMC2130StepperDriver.driver d)),
           with_trace m [EvChip c (answer c (TMC2130StepperDriver.driver d))])).
Proof. reflexivity. Qed.

Lemma run_wait {B} (k : unit -> Dv S B) (n fuel : nat) (d : tmc)
    (m : Machine E) :
  exits_after 100 n 0 (TMC2130StepperDriver.driver d) = true ->
  (n < fuel)%nat ->
  bindD (TMC2130StepperDriver.TRINAMIC_WAIT_FOR_STANDSTILL 100 fuel) k (d, m)
  = k tt (with_chip d (after_polls (Datatypes.S n)
                         (TMC2130StepperDriver.driver d)),
          with_trace m (wait_rounds n (TMC2130StepperDriver.driver d)
                        ++ [EvChip stst true])).
Proof.
  intros Hex Hfuel.
  unfold bindD, TMC2130StepperDriver.TRINAMIC_WAIT_FOR_STANDSTILL, WAIT_UNTIL.
  now rewrite (wait_exits 100 n fuel 0 d m Hex Hfuel).
Qed.

Lemma run_wait_for_ever {B} (k : unit -> Dv S B) (fuel : nat) (d : tmc)
    (m : Machine E) :
  (forall n, stst_at n (TMC2130StepperDriver.driver d) = false) ->
  bindD (TMC2130StepperDriver.TRINAMIC_WAIT_FOR_STANDSTILL 100 fuel) k (d, m)
  = None.
Proof.
  intros Hnever.
  unfold bindD, TMC2130StepperDriver.TRINAMIC_WAIT_FOR_STANDSTILL, WAIT_UNTIL.
  now rewrite wait_never_still.
Qed.

Lemma run_wait_ended {B} (k : unit -> Dv S B) (fuel : nat) (d : tmc)
    (m : Machine E) r :
  bindD (TMC2130StepperDriver.TRINAMIC_WAIT_FOR_STANDSTILL 100 fuel) k (d, m)
  = Some r ->
  exists n, (n < fuel)%nat /\
    exits_after 100 n 0 (TMC2130StepperDriver.driver d) = true.
Proof.
  unfold bindD, TMC2130StepperDriver.TRINAMIC_WAIT_FOR_STANDSTILL, WAIT_UNTIL.
  destruct (WAIT_UNTIL_from _ _ _ _ _) as [w|] eqn:Hw; [|discriminate].
  intros _. now apply wait_ended in Hw.
Qed.
End Steps.

Ltac tidy :=
  rewrite ?driver_with_chip, ?with_chip_twice, ?set_enable_with_trace,
    ?set_enable_twice, ?with_trace_app, ?answer_unit.
Ltac step :=
  first [ rewrite run_printF | rewrite run_printFLN | rewrite run_printFLN_val
        | rewrite run_enable_off | rewrite run_enable_on | rewrite run_call
        | rewrite run_last_call ];
  cbv beta; tidy.
Ltac lists := rewrite <- ?app_assoc; cbn [app].

(** ** TMC2130StepperDriver::init() *)

Section Init.
Context {E : Type} `{EndstopDriver E} {Chip : Type} `{TMC2130Stepper Chip}.
Local Abbreviation tmc := (TMC2130StepperDriver.t Chip).

(** [init()] up to the second connectivity test. *)
Lemma init_opening_run (d : tmc) (m : Machine E) (fuel : nat) :
  TMC2130StepperDriver.init fuel (d, m) =
  let ch := TMC2130StepperDriver.driver d in
  let s := (with_chip d (chip_tested ch),
            with_trace (set_enable false m) (init_opening ch)) in
  if negb (second_test ch =? 0) then
    bindD (total (hw (Com_printFLN "SPI error"))) (fun _ => retD false) s
  else
    (v <- total (TMC2130StepperDriver.driver_call version) ;;
     total (hw (Com_printFLN_val "chip version " v)) ;;
     TMC2130StepperDriver.TRINAMIC_WAIT_FOR_STANDSTILL 100 fuel ;;
     total (TMC2130StepperDriver.driver_call (I_scale_analog true)) ;;
     total (TMC2130StepperDriver.driver_call (interpolate false)) ;;
     total (TMC2130StepperDriver.driver_call (internal_Rsense false)) ;;
     total (TMC2130StepperDriver.driver_call (sgt 0)) ;;
     total (TMC2130StepperDriver.driver_call (diag1_stall true)) ;;
     total (hw enableCls_on) ;;
     retD true)%dv s.
Proof.
  match goal with |- _ = ?rhs => set (r := rhs) end.
  unfold TMC2130StepperDriver.init. do 5 step.
  subst r. unfold init_opening, first_test, second_test, chip_tested.
  cbv zeta. lists.
  destruct (negb _); reflexivity.
Qed.

(** The failure exit of [init()] needs no fuel. *)
Lemma init_failure_run (d : tmc) (m : Machine E) (fuel : nat) :
  second_test (TMC2130StepperDriver.driver d) <> 0 ->
  TMC2130StepperDriver.init fuel (d, m) = Some (false, init_failed d m).
Proof.
  intros Hbad. apply Z.eqb_neq in Hbad.
  rewrite init_opening_run. cbv zeta. rewrite Hbad. cbn [negb].
  step. reflexivity.
Qed.

Lemma init_success_run (d : tmc) (m : Machine E) (k fuel : nat) :
  second_test (TMC2130StepperDriver.driver d) = 0 ->
  exits_after 100 k 0 (chip_reported (TMC2130StepperDriver.driver d)) = true ->
  (k < fuel)%nat ->
  TMC2130StepperDriver.init fuel (d, m) = Some (true, init_done k d m).
Proof.
  intros Hok Hex Hfuel. apply Z.eqb_eq in Hok.
  rewrite init_opening_run. cbv zeta. rewrite Hok. cbn [negb].
  do 2 step.
  rewrite (run_wait _ k fuel); [ | exact Hex | exact Hfuel ].
  cbv beta. tidy. do 6 step.
  unfold retD, init_done, init_report, init_configuration, configured,
    chip_reported.
  lists. reflexivity.
Qed.

Lemma init_hangs (d : tmc) (m : Machine E) (fuel : nat) :
  second_test (TMC2130StepperDriver.driver d) = 0 ->
  (forall k,
     stst_at k (chip_reported (TMC2130StepperDriver.driver d)) = false) ->
  TMC2130StepperDriver.init fuel (d, m) = None.
Proof.
  intros Hok Hnever. apply Z.eqb_eq in Hok.
  rewrite init_opening_run. cbv zeta. rewrite Hok. cbn [negb].
  do 2 step.
  now rewrite run_wait_for_ever.
Qed.

(** [init()] returns exactly when the second test fails or the wait ends. *)
Lemma init_returns (d : tmc) (m : Machine E) (fuel : nat) r :
  TMC2130StepperDriver.init fuel (d, m) = Some r ->
  (second_test (TMC2130StepperDriver.driver d) <> 0
   /\ r = (false, init_failed d m))
  \/ (second_test (TMC2130StepperDriver.driver d) = 0
      /\ exists k, (k < fuel)%nat /\ r = (true, init_done k d m)).
Proof.
  intros Hr.
  destruct (Z.eq_dec (second_test (TMC2130StepperDriver.driver d)) 0)
    as [Hok|Hbad].
  - right. split; [exact Hok|].
    assert (Hw : exists k, (k < fuel)%nat /\
              exits_after 100 k 0
                (chip_reported (TMC2130StepperDriver.driver d)) = true).
    { revert Hr. pose proof Hok as Hok'. apply Z.eqb_eq in Hok'.
      rewrite init_opening_run. cbv zeta. rewrite Hok'. cbn [negb].
      do 2 step. intros Hr. apply run_wait_ended in Hr. exact Hr. }
    destruct Hw as [k [Hk Hex]]. exists k. split; [exact Hk|].
    rewrite (init_success_run d m k fuel Hok Hex Hk) in Hr. congruence.
  - left. split; [exact Hbad|].
    rewrite (init_failure_run d m fuel Hbad) in Hr. congruence.
Qed.

(** [init()] returns false if and only if the second test answers nonzero;
    the first answer plays no part. *)
Lemma init_false_iff (d : tmc) (m : Machine E) (fuel : nat) :
  (exists s', TMC2130StepperDriver.init fuel (d, m) = Some (false, s'))
  <-> second_test (TMC2130StepperDriver.driver d) <> 0.
Proof.
  split.
  - intros [s' Hs]. apply init_returns in Hs.
    destruct Hs as [[Hbad _]|[_ [k [_ Hk]]]]; [exact Hbad | discriminate].
  - intros Hbad. exists (init_failed d m). now apply init_failure_run.
Qed.
End Init.

(** ** The setters of TMC2130StepperDriver *)

Section Setters.
Context {E : Type} `{EndstopDriver E} {Chip : Type} `{TMC2130Stepper Chip}.
Local Abbreviation tmc := (TMC2130StepperDriver.t Chip).

Lemma setMicrosteps_run (n : Z) (d : tmc) (m : Machine E) (k fuel : nat) :
  exits_after 100 k 0 (TMC2130StepperDriver.driver d) = true ->
  (k < fuel)%nat ->
  TMC2130StepperDriver.setMicrosteps n fuel (d, m)
  = Some (tt, after_wait_and (microsteps n) k d m).
Proof.
  intros Hex Hfuel. unfold TMC2130StepperDriver.setMicrosteps.
  rewrite (run_wait _ k fuel); [ | exact Hex | exact Hfuel ].
  cbv beta. step. unfold after_wait_and. lists. reflexivity.
Qed.


Lemma setMicrosteps_hangs (n : Z) (d : tmc) (m : Machine E) (fuel : nat) :
  (forall k, stst_at k (TMC2130StepperDriver.driver d) = false) ->
  TMC2130StepperDriver.setMicrosteps n fuel (d, m) = None.
Proof.
  intros Hnever. unfold TMC2130StepperDriver.setMicrosteps.
  now rewrite run_wait_for_ever.
Qed.

Lemma setMotorCurrent_hangs (n : Z) (d : tmc) (m : Machine E) (fuel : nat) :
  (forall k, stst_at k (TMC2130StepperDriver.driver d) = false) ->
  TMC2130StepperDriver.setMotorCurrent n fuel (d, m) = None.
Proof.
  intros Hnever. unfold TMC2130StepperDriver.setMotorCurrent.
  now rewrite run_wait_for_ever.
Qed.

(** In a wait followed by one write, the write is the last event and the
    only one that is not a poll or a delay. *)
Lemma wait_then_write_shape (c : ChipCall unit) (k : nat) (ch : Chip) :
  let evs := wait_rounds k ch ++ [EvChip stst true; EvChip c tt] in
  evs = removelast evs ++ [EvChip c tt] /\
  forallb is_wait_event (removelast evs) = true /\
  count is_delay evs = k.
Proof.
  cbn zeta.
  replace (wait_rounds k ch ++ [EvChip stst true; EvChip c tt])
    with ((wait_rounds k ch ++ [EvChip stst true]) ++ [EvChip c tt])
    by now rewrite <- app_assoc.
  rewrite removelast_last. split; [reflexivity|]. split.
  - rewrite forallb_app, wait_rounds_are_waiting. reflexivity.
  - rewrite !count_app, wait_rounds_delays.
    assert (Hc : count is_delay [EvChip c tt] = 0%nat)
      by (unfold count; cbn; now destruct c).
    rewrite Hc. cbn. lia.
Qed.

Lemma wait_rounds_no_write (k : nat) :
  forall ch : Chip, count is_chip_write (wait_rounds k ch) = 0%nat.
Proof. induction k as [|k IH]; intros ch; [reflexivity|]. apply IH. Qed.

(** A wait followed by [driver.microsteps(n)] or [driver.rms_current(n)]
    sends exactly one value to the chip, the one given. *)
Lemma wait_then_microsteps_counts (n : Z) (k : nat) (ch : Chip) :
  let evs := wait_rounds k ch ++ [EvChip stst true; EvChip (microsteps n) tt] in
  count is_chip_write evs = 1%nat /\
  count (is_microsteps_write n) evs = 1%nat.
Proof.
  cbn zeta. rewrite !count_app, wait_rounds_no_write. split.
  - reflexivity.
  - assert (Hw : count (is_microsteps_write n) (wait_rounds k ch) = 0%nat).
    { clear. revert ch. induction k as [|k IH]; intros ch;
        [reflexivity | apply IH]. }
    rewrite Hw. unfold count. cbn. now rewrite Z.eqb_refl.
Qed.

Lemma wait_then_rms_current_counts (n : Z) (k : nat) (ch : Chip) :
  let evs := wait_rounds k ch ++ [EvChip stst true; EvChip (rms_current n) tt] in
  count is_chip_write evs = 1%nat /\
  count (is_rms_current_write n) evs = 1%nat.
Proof.
  cbn zeta. rewrite !count_app, wait_rounds_no_write. split.
  - reflexivity.
  - assert (Hw : count (is_rms_current_write n) (wait_rounds k ch) = 0%nat).
    { clear. revert ch. induction k as [|k IH]; intros ch;
        [reflexivity | apply IH]. }
    rewrite Hw. unfold count. cbn. now rewrite Z.eqb_refl.
Qed.

(** [implementSetMaxCurrent()] on a [TMC2130StepperDriver]. *)
Lemma tmc_implementSetMaxCurrent (d : tmc) :
  implementSetMaxCurrent (TMC2130 d) = true.
Proof. reflexivity. Qed.

(** On a [SimpleStepperDriver] the three setters do nothing, and both
    capability queries answer false. *)
Lemma simple_setters_do_nothing (d : SimpleStepperDriver.t) (m : Machine E)
    (n : Z) (fuel : nat) :
  implementSetMicrosteps (Simple (Chip := Chip) d) = false /\
  implementSetMaxCurrent (Simple (Chip := Chip) d) = false /\
  setMicrosteps n fuel (Simple (Chip := Chip) d, m)
    = Some (tt, (Simple d, m)) /\
  setMotorCurrent n fuel (Simple (Chip := Chip) d, m)
    = Some (tt, (Simple d, m)) /\
  setMotorCurrentPercent n (Simple (Chip := Chip) d, m)
    = (tt, (Simple d, m)).
Proof. repeat split. Qed.
End Setters.

(** The poll counter of a simulated chip after [k] more polls. *)
Lemma SimChip_after_polls (k : nat) :
  forall ch : SimChip.t,
    SimChip.standstill (after_polls k ch) = SimChip.standstill ch /\
    SimChip.polled (after_polls k ch) = (k + SimChip.polled ch)%nat.
Proof.
  induction k as [|k IH]; intros ch; [now split|].
  cbn [after_polls]. destruct (IH (snd (call stst ch))) as [H1 H2].
  rewrite H1, H2. cbn. split; [reflexivity | lia].
Qed.

(** A simulated chip whose standstill input is constantly false never
    reports standstill. *)
Lemma SimChip_never_still (ch : SimChip.t) :
  (forall i, SimChip.standstill ch i = false) ->
  forall k, stst_at k ch = false.
Proof.
  intros Hin k. unfold stst_at.
  destruct (SimChip_after_polls k ch) as [H1 _].
  cbn. rewrite H1. apply Hin.
Qed.

(** ** The claims about init(), the setters and the wait *)

Section InitFailure.
Context {E : Type} `{EndstopDriver E} {Chip : Type} `{TMC2130Stepper Chip}.

(** C9.  When the second connectivity test of [init()] answers a nonzero
    status, [init()] returns false whatever the fuel.  Up to then it has
    printed its banner, switched the enable output off, called [begin()] and
    tested the connection twice; after that it only prints "SPI error".  The
    enable output is off at the end and was never switched on, the standstill
    predicate was never polled, no delay was made and no value was written to
    the chip: none of the five configuration writes happens. *)
Theorem init_failure_leaves_chip_unconfigured
    (d : TMC2130StepperDriver.t Chip) (m : Machine E) (fuel : nat)
    (Hbad : second_test (TMC2130StepperDriver.driver d) <> 0) :
  let evs := init_opening (TMC2130StepperDriver.driver d)
             ++ [EvPrintFLN "SPI error"] in
  exists s',
    TMC2130StepperDriver.init fuel (d, m) = Some (false, s') /\
    emitted m (snd s') evs /\
    enable_pin (snd s') = false /\
    count is_enable_on evs = 0%nat /\
    count is_stst_poll evs = 0%nat /\
    count is_delay evs = 0%nat /\
    count is_chip_write evs = 0%nat /\
    TMC2130StepperDriver.driver (fst s')
      = chip_tested (TMC2130StepperDriver.driver d).
Proof.
  cbn zeta. exists (init_failed d m). split.
  - now apply init_failure_run.
  - repeat split.
Qed.
End InitFailure.

(** A chip that answers 1 to every connectivity test, and no fuel at all. *)
Lemma init_failure_leaves_chip_unconfigured_witness :
  let d := Bench.tmc 1 true in
  let evs := init_opening (TMC2130StepperDriver.driver d)
             ++ [EvPrintFLN "SPI error"] in
  second_test (TMC2130StepperDriver.driver d) <> 0 /\
  exists s',
    TMC2130StepperDriver.init 0 (d, Bench.machine) = Some (false, s') /\
    emitted Bench.machine (snd s') evs /\
    enable_pin (snd s') = false /\
    count is_enable_on evs = 0%nat /\
    count is_stst_poll evs = 0%nat /\
    count is_delay evs = 0%nat /\
    count is_chip_write evs = 0%nat /\
    TMC2130StepperDriver.driver (fst s')
      = chip_tested (TMC2130StepperDriver.driver d).
Proof.
  cbn zeta. split.
  - vm_compute. discriminate.
  - apply (init_failure_leaves_chip_unconfigured (Bench.tmc 1 true)
             Bench.machine 0).
    vm_compute. discriminate.
Defined.

(** C3, at an input where it fails.  On a chip that never reports
    standstill the wait [TRINAMIC_WAIT_FOR_STANDSTILL(100)] does not end:
    whatever the fuel, it is still running.  On a chip that answers false to
    its first 1500 polls and true afterwards, the wait ends, after 1500
    delays: more than the budget of 100 * 1000 / 100 = 1000 samples.  And on
    a chip at standstill from the start, it still sits through all 1000
    delays. *)
Theorem wait_is_not_bounded_by_its_budget :
  (forall fuel,
     TMC2130StepperDriver.TRINAMIC_WAIT_FOR_STANDSTILL 100 fuel
       (Bench.tmc 0 false, Bench.machine) = None) /\
  (exists s' evs,
     TMC2130StepperDriver.TRINAMIC_WAIT_FOR_STANDSTILL 100 1501
       (TMC2130StepperDriver.mk (Bench.base true) (Bench.chip_still_from 1500)
          Bench.zeros, Bench.machine) = Some (tt, s') /\
     emitted Bench.machine (snd s') evs /\
     count is_delay evs = 1500%nat) /\
  (exists s' evs,
     TMC2130StepperDriver.TRINAMIC_WAIT_FOR_STANDSTILL 100 1001
       (Bench.tmc 0 true, Bench.machine) = Some (tt, s') /\
     emitted Bench.machine (snd s') evs /\
     count is_delay evs = 1000%nat).
Proof.
  split; [ | split ].
  - intros fuel.
    unfold TMC2130StepperDriver.TRINAMIC_WAIT_FOR_STANDSTILL, WAIT_UNTIL.
    apply wait_never_still. apply SimChip_never_still. reflexivity.
  - eexists. eexists. split; [ | split ].
    + unfold TMC2130StepperDriver.TRINAMIC_WAIT_FOR_STANDSTILL, WAIT_UNTIL.
      apply (wait_exits 100 1500); [ vm_compute; reflexivity | lia ].
    + reflexivity.
    + rewrite count_app, wait_rounds_delays. reflexivity.
  - eexists. eexists. split; [ | split ].
    + unfold TMC2130StepperDriver.TRINAMIC_WAIT_FOR_STANDSTILL, WAIT_UNTIL.
      apply (wait_exits 100 1000); [ vm_compute; reflexivity | lia ].
    + reflexivity.
    + rewrite count_app, wait_rounds_delays. reflexivity.
Qed.

(** C5, at an input where it fails.  The chip passes both connectivity
    tests but never reports standstill: [init()] prints the version and then
    stays in the standstill wait, so it neither configures the chip nor
    returns, whatever the fuel. *)
Theorem init_hangs_when_never_still (fuel : nat) :
  second_test (TMC2130StepperDriver.driver (Bench.tmc 0 false)) = 0 /\
  TMC2130StepperDriver.init fuel (Bench.tmc 0 false, Bench.machine) = None.
Proof.
  split; [reflexivity|].
  apply init_hangs; [reflexivity|].
  apply SimChip_never_still. reflexivity.
Qed.

(** C7, at an input where it fails.  On a chip that never reports
    standstill neither [setMicrosteps(n)] nor [setMotorCurrent(n)] gets to
    its register write: both stay in the standstill wait, whatever the
    fuel. *)
Theorem setters_hang_when_never_still (n : Z) (fuel : nat) :
  TMC2130StepperDriver.setMicrosteps n fuel (Bench.tmc 0 false, Bench.machine)
    = None /\
  TMC2130StepperDriver.setMotorCurrent n fuel
    (Bench.tmc 0 false, Bench.machine) = None.
Proof.
  split; [apply setMicrosteps_hangs | apply setMotorCurrent_hangs];
    apply SimChip_never_still; reflexivity.
Qed.

(** C4, at an input where it fails.  A [TMC2130StepperDriver] answers false
    to [implementSetMicrosteps()], yet [setMicrosteps(16)] on it, with the
    chip at standstill, writes 16 to the microstep setting of the chip. *)
Theorem tmc_setMicrosteps_writes_despite_query :
  let o := TMC2130 (Bench.tmc 0 true) in
  implementSetMicrosteps o = false /\
  exists s' evs,
    setMicrosteps 16 1001 (o, Bench.machine) = Some (tt, s') /\
    emitted Bench.machine (snd s') evs /\
    count (is_microsteps_write 16) evs = 1%nat /\
    count is_chip_write evs = 1%nat.
Proof.
  cbn zeta. split; [reflexivity|].
  eexists. eexists. split; [ | split; [ | split ] ].
  - unfold setMicrosteps. cbn [fst snd].
    rewrite (setMicrosteps_run 16 _ _ 1000 1001);
      [ reflexivity | vm_compute; reflexivity | lia ].
  - reflexivity.
  - vm_compute. reflexivity.
  - vm_compute. reflexivity.
Qed.

(** ** The homing bracket *)

Section HomingSteps.
Context {E : Type} `{EndstopDriver E} {Chip : Type} `{TMC2130Stepper Chip}.
Local Abbreviation tmc := (TMC2130StepperDriver.t Chip).
Local Abbreviation S := (tmc * Machine E)%type.

Lemma do_reg {B} (r : Register) (k : Z -> St S B) (d : tmc) (m : Machine E) :
  bind (TMC2130StepperDriver.driver_reg r) k (d, m)
  = k (reg_value r (TMC2130StepperDriver.driver d))
      (with_chip d (exec (reg_get r) (TMC2130StepperDriver.driver d)),
       with_trace m
         [EvChip (reg_get r)
            (answer (reg_get r) (TMC2130StepperDriver.driver d))]).
Proof. reflexivity. Qed.

Lemma do_assign {B} (set : Z -> RegisterBackup.t -> RegisterBackup.t)
    (v : Z) (k : unit -> St S B) (d : tmc) (m : Machine E) :
  bind (TMC2130StepperDriver.assign_backup set v) k (d, m)
  = k tt (with_backup d (set v (TMC2130StepperDriver.backup d)), m).
Proof. reflexivity. Qed.

Lemma do_last_assign (set : Z -> RegisterBackup.t -> RegisterBackup.t)
    (v : Z) (d : tmc) (m : Machine E) :
  TMC2130StepperDriver.assign_backup set v (d, m)
  = (tt, (with_backup d (set v (TMC2130StepperDriver.backup d)), m)).
Proof. reflexivity. Qed.

Lemma do_field {B} (field : RegisterBackup.t -> Z) (k : Z -> St S B)
    (d : tmc) (m : Machine E) :
  bind (TMC2130StepperDriver.backup_field field) k (d, m)
  = k (field (TMC2130StepperDriver.backup d)) (d, m).
Proof. reflexivity. Qed.

Lemma do_call {R B} (c : ChipCall R) (k : R -> St S B) (d : tmc)
    (m : Machine E) :
  bind (TMC2130StepperDriver.driver_call c) k (d, m)
  = k (answer c (TMC2130StepperDriver.driver d))
      (with_chip d (exec c (TMC2130StepperDriver.driver d)),
       with_trace m [EvChip c (answer c (TMC2130StepperDriver.driver d))]).
Proof. reflexivity. Qed.

Lemma do_last_call {R} (c : ChipCall R) (d : tmc) (m : Machine E) :
  TMC2130StepperDriver.driver_call c (d, m)
  = (answer c (TMC2130StepperDriver.driver d),
     (with_chip d (exec c (TMC2130StepperDriver.driver d)),
      with_trace m [EvChip c (answer c (TMC2130StepperDriver.driver d))])).
Proof. reflexivity. Qed.

Lemma backup_with_chip (d : tmc) (ch : Chip) :
  TMC2130StepperDriver.backup (with_chip d ch) = TMC2130StepperDriver.backup d.
Proof. reflexivity. Qed.

Lemma backup_with_backup (d : tmc) (b : RegisterBackup.t) :
  TMC2130StepperDriver.backup (with_backup d b) = b.
Proof. reflexivity. Qed.

Lemma driver_with_backup (d : tmc) (b : RegisterBackup.t) :
  TMC2130StepperDriver.driver (with_backup d b) = TMC2130StepperDriver.driver d.
Proof. reflexivity. Qed.

Lemma with_chip_with_backup (d : tmc) (b : RegisterBackup.t) (ch : Chip) :
  with_chip (with_backup d b) ch = with_backup (with_chip d ch) b.
Proof. reflexivity. Qed.

Lemma with_backup_twice (d : tmc) (b b' : RegisterBackup.t) :
  with_backup (with_backup d b) b' = with_backup d b'.
Proof. reflexivity. Qed.
End HomingSteps.

Ltac tidy_homing :=
  rewrite ?backup_with_chip, ?backup_with_backup, ?driver_with_backup,
    ?with_chip_with_backup, ?with_backup_twice, ?driver_with_chip,
    ?with_chip_twice, ?with_trace_app, ?answer_unit.
Ltac homing_step :=
  first [ rewrite do_reg | rewrite do_assign | rewrite do_field
        | rewrite do_call | rewrite do_last_assign | rewrite do_last_call ];
  cbv beta; tidy_homing.

Section Homing.
Context {E : Type} `{EndstopDriver E} {Chip : Type} `{TMC2130Stepper Chip}.
Local Abbreviation tmc := (TMC2130StepperDriver.t Chip).

(** [beforeHoming()]: six reads, six assignments. *)
Lemma beforeHoming_run (d : tmc) (m : Machine E) :
  TMC2130StepperDriver.beforeHoming (d, m)
  = (tt, (with_backup
            (with_chip d (read_TPWMTHRS (TMC2130StepperDriver.driver d)))
            (snapshot (TMC2130StepperDriver.driver d)),
          with_trace m (backup_reads (TMC2130StepperDriver.driver d)))).
Proof.
  match goal with |- _ = ?rhs => set (r := rhs) end.
  unfold TMC2130StepperDriver.beforeHoming. do 12 homing_step.
  subst r. lists. reflexivity.
Qed.

(** [afterHoming()]: six writes of the fields of [backup]. *)
Lemma afterHoming_run (d : tmc) (m : Machine E) :
  TMC2130StepperDriver.afterHoming (d, m)
  = (tt, (with_chip d (restored (TMC2130StepperDriver.backup d)
                         (TMC2130StepperDriver.driver d)),
          with_trace m (restore_writes (TMC2130StepperDriver.backup d)))).
Proof.
  match goal with |- _ = ?rhs => set (r := rhs) end.
  unfold TMC2130StepperDriver.afterHoming. do 12 homing_step.
  subst r. lists. reflexivity.
Qed.

(** Register writes in between change the chip and the trace only. *)
Lemma write_registers_run (ws : list (Register * Z)) :
  forall (d : tmc) (m : Machine E),
    write_registers ws (d, m)
    = (tt, (with_chip d (written ws (TMC2130StepperDriver.driver d)),
            with_trace m (write_events ws))).
Proof.
  induction ws as [|w ws IH]; intros d m; cbn [write_registers].
  - unfold ret. cbn. now rewrite with_chip_same, with_trace_nil.
  - rewrite do_call. rewrite IH. tidy_homing. reflexivity.
Qed.
End Homing.

Lemma uint32_idem (x : Z) : uint32 (uint32 x) = uint32 x.
Proof. unfold uint32, to_uint. apply Z.mod_mod. lia. Qed.

Lemma Register_eqb_eq (a b : Register) :
  SimChip.Register_eqb a b = true <-> a = b.
Proof. destruct a, b; cbn; split; congruence. Qed.

(** The simulated chip is a register file. *)
Lemma SimChip_RegisterFile : RegisterFile SimChip.t.
Proof.
  split.
  - reflexivity.
  - intros r v ch. unfold reg_value. cbn.
    assert (Hr : SimChip.Register_eqb r r = true) by now apply Register_eqb_eq.
    rewrite Hr. apply uint32_idem.
  - intros r r' v ch Hne. unfold reg_value. cbn.
    destruct (SimChip.Register_eqb r r') eqn:Heq; [|reflexivity].
    apply Register_eqb_eq in Heq. contradiction.
Qed.

Section RegisterLaws.
Context {Chip : Type} `{TMC2130Stepper Chip} {RF : RegisterFile Chip}.

Lemma reg_value_read (r r' : Register) (ch : Chip) :
  reg_value r' (exec (reg_get r) ch) = reg_value r' ch.
Proof. apply read_keeps. Qed.

Lemma reg_value_write (r r' : Register) (v : Z) (ch : Chip) :
  reg_value r' (exec (reg_set r v) ch)
  = if SimChip.Register_eqb r r' then uint32 v else reg_value r' ch.
Proof.
  destruct (SimChip.Register_eqb r r') eqn:Heq.
  - apply Register_eqb_eq in Heq. subst r'. apply write_same.
  - apply write_other. intros ->.
    assert (Hr : SimChip.Register_eqb r' r' = true)
      by now apply Register_eqb_eq.
    congruence.
Qed.

Lemma reg_value_uint32 (r : Register) (ch : Chip) :
  uint32 (reg_value r ch) = reg_value r ch.
Proof. apply uint32_idem. Qed.

(** Reading all six registers changes none of them, and the values read
    are the registers as they were. *)
Lemma registers_after_reads (ch : Chip) :
  registers (read_TPWMTHRS ch) = registers ch.
Proof.
  unfold registers, read_TPWMTHRS, read_TCOOLTHRS, read_PWMCONF,
    read_COOLCONF, read_CHOPCONF, read_GCONF.
  now rewrite !reg_value_read.
Qed.

Lemma snapshot_registers (ch : Chip) : snapshot ch = registers ch.
Proof.
  unfold snapshot, registers, read_TCOOLTHRS, read_PWMCONF,
    read_COOLCONF, read_CHOPCONF, read_GCONF.
  now rewrite !reg_value_read.
Qed.

(** After the six writes the registers hold the six values written, whatever
    the chip held before. *)
Lemma registers_restored (b : RegisterBackup.t) (ch : Chip) :
  registers (restored b ch)
  = RegisterBackup.mk
      (uint32 (RegisterBackup.GCONF b)) (uint32 (RegisterBackup.CHOPCONF b))
      (uint32 (RegisterBackup.COOLCONF b)) (uint32 (RegisterBackup.PWMCONF b))
      (uint32 (RegisterBackup.TCOOLTHRS b))
      (uint32 (RegisterBackup.TPWMTHRS b)).
Proof.
  unfold registers, restored. rewrite !reg_value_write. reflexivity.
Qed.

Lemma registers_restored_registers (ch0 ch : Chip) :
  registers (restored (registers ch0) ch) = registers ch0.
Proof.
  rewrite registers_restored. unfold registers.
  cbn [RegisterBackup.GCONF RegisterBackup.CHOPCONF RegisterBackup.COOLCONF
       RegisterBackup.PWMCONF RegisterBackup.TCOOLTHRS
       RegisterBackup.TPWMTHRS].
  now rewrite !reg_value_uint32.
Qed.
End RegisterLaws.

Section HomingBracket.
Context {E : Type} `{EndstopDriver E} {Chip : Type} `{TMC2130Stepper Chip}
        {RF : RegisterFile Chip}.
Local Abbreviation tmc := (TMC2130StepperDriver.t Chip).

(** The bracket restores the registers whatever state [ch'] the chip is in
    when [afterHoming()] is called. *)
Lemma homing_restores_from_any_chip (d : tmc) (m m' : Machine E)
    (ch' : Chip) :
  let d1 := fst (snd (TMC2130StepperDriver.beforeHoming (d, m))) in
  let s3 := snd (TMC2130StepperDriver.afterHoming (with_chip d1 ch', m')) in
  registers (TMC2130StepperDriver.driver (fst s3))
  = registers (TMC2130StepperDriver.driver d).
Proof.
  cbv zeta. rewrite beforeHoming_run. cbn [fst snd].
  rewrite afterHoming_run. cbn [fst snd]. tidy_homing.
  rewrite snapshot_registers. apply registers_restored_registers.
Qed.

(** C2.  Round trip of the homing bracket.  Whatever the six tracked
    registers of the chip hold when [beforeHoming()] is called, and whatever
    register writes [ws] are made on the chip afterwards, once
    [afterHoming()] has run the six registers hold again what they held
    before [beforeHoming()]. *)
Theorem homing_round_trip (d : tmc) (m : Machine E)
    (ws : list (Register * Z)) :
  let s1 := snd (TMC2130StepperDriver.beforeHoming (d, m)) in
  let s2 := snd (write_registers ws s1) in
  let s3 := snd (TMC2130StepperDriver.afterHoming s2) in
  registers (TMC2130StepperDriver.driver (fst s3))
  = registers (TMC2130StepperDriver.driver d).
Proof.
  cbv zeta. rewrite beforeHoming_run. cbn [fst snd].
  rewrite write_registers_run. cbn [fst snd].
  rewrite afterHoming_run. cbn [fst snd]. tidy_homing.
  rewrite snapshot_registers. apply registers_restored_registers.
Qed.

(** C10.  [beforeHoming()] makes six register reads, in the order GCONF,
    CHOPCONF, COOLCONF, PWMCONF, TCOOLTHRS, TPWMTHRS, and nothing else: no
    write, and the six registers hold afterwards what they held before.
    [afterHoming()] leaves the backup record as it is and writes its six
    fields, so that two calls in a row write the same six values twice. *)
Theorem homing_bracket_frame (d : tmc) (m : Machine E) :
  let s1 := snd (TMC2130StepperDriver.beforeHoming (d, m)) in
  let s2 := snd (TMC2130StepperDriver.afterHoming (d, m)) in
  let s3 := snd (TMC2130StepperDriver.afterHoming s2) in
  let ws := restore_writes (TMC2130StepperDriver.backup d) in
  emitted m (snd s1) (backup_reads (TMC2130StepperDriver.driver d)) /\
  count is_chip_read (backup_reads (TMC2130StepperDriver.driver d)) = 6%nat /\
  count is_chip_write (backup_reads (TMC2130StepperDriver.driver d)) = 0%nat /\
  registers (TMC2130StepperDriver.driver (fst s1))
    = registers (TMC2130StepperDriver.driver d) /\
  TMC2130StepperDriver.backup (fst s2) = TMC2130StepperDriver.backup d /\
  emitted m (snd s2) ws /\
  emitted (snd s2) (snd s3) ws /\
  emitted m (snd s3) (ws ++ ws).
Proof.
  cbv zeta. rewrite beforeHoming_run, !afterHoming_run. cbn [fst snd].
  rewrite afterHoming_run. cbn [fst snd]. tidy_homing.
  repeat split.
  - apply registers_after_reads.
  - unfold emitted. cbn. now rewrite <- app_assoc.
Qed.
End HomingBracket.

(** The scenario of the specification: the registers hold 1 to 6, homing
    overwrites all six, and they hold 1 to 6 again. *)
Lemma homing_round_trip_witness :
  let d := Bench.tmc 0 true in
  let ws := [(GCONF, 101); (CHOPCONF, 102); (COOLCONF, 103); (PWMCONF, 104);
             (TCOOLTHRS, 105); (TPWMTHRS, 106)] in
  let s1 := snd (TMC2130StepperDriver.beforeHoming (d, Bench.machine)) in
  let s2 := snd (write_registers ws s1) in
  let s3 := snd (TMC2130StepperDriver.afterHoming s2) in
  RegisterFile SimChip.t /\
  registers (TMC2130StepperDriver.driver (fst s2))
    = RegisterBackup.mk 101 102 103 104 105 106 /\
  registers (TMC2130StepperDriver.driver (fst s3))
    = registers (TMC2130StepperDriver.driver d).
Proof.
  cbv zeta. split; [exact SimChip_RegisterFile|]. split; [reflexivity|].
  exact (homing_round_trip (RF := SimChip_RegisterFile)
           (Bench.tmc 0 true) Bench.machine
           [(GCONF, 101); (CHOPCONF, 102); (COOLCONF, 103); (PWMCONF, 104);
            (TCOOLTHRS, 105); (TPWMTHRS, 106)]).
Defined.

(** The bracket on the simulated chip. *)
Lemma homing_bracket_frame_witness :
  let d := Bench.tmc 0 true in
  let m := Bench.machine in
  let s1 := snd (TMC2130StepperDriver.beforeHoming (d, m)) in
  let s2 := snd (TMC2130StepperDriver.afterHoming (d, m)) in
  let s3 := snd (TMC2130StepperDriver.afterHoming s2) in
  let ws := restore_writes (TMC2130StepperDriver.backup d) in
  RegisterFile SimChip.t /\
  emitted m (snd s1) (backup_reads (TMC2130StepperDriver.driver d)) /\
  count is_chip_read (backup_reads (TMC2130StepperDriver.driver d)) = 6%nat /\
  count is_chip_write (backup_reads (TMC2130StepperDriver.driver d)) = 0%nat /\
  registers (TMC2130StepperDriver.driver (fst s1))
    = registers (TMC2130StepperDriver.driver d) /\
  TMC2130StepperDriver.backup (fst s2) = TMC2130StepperDriver.backup d /\
  emitted m (snd s2) ws /\
  emitted (snd s2) (snd s3) ws /\
  emitted m (snd s3) (ws ++ ws).
Proof.
  cbv zeta. split; [exact SimChip_RegisterFile|].
  exact (homing_bracket_frame (RF := SimChip_RegisterFile)
           (Bench.tmc 0 true) Bench.machine).
Defined.

(** * Further properties *)

(** ** Single stepping calls through the base class *)

Section Calls.
Context {E : Type} `{EndstopDriver E} {Chip : Type} `{TMC2130Stepper Chip}.
Local Abbreviation Obj := (StepperDriver Chip).

Lemma base_of_with_base (o : Obj) (b : StepperDriverBase.t) :
  base_of (with_base o b) = b.
Proof. now destruct o. Qed.

Lemma with_base_twice (o : Obj) (b b' : StepperDriverBase.t) :
  with_base (with_base o b) b' = with_base o b'.
Proof. now destruct o. Qed.

Lemma with_base_same (o : Obj) : with_base o (base_of o) = o.
Proof. destruct o as [b|[b ch bk]]; reflexivity. Qed.

Lemma step_run (o : Obj) (m : Machine E) :
  step (o, m) = (tt, (o, with_trace (set_step true m) [EvStepOn])).
Proof. destruct o as [b|[b ch bk]]; reflexivity. Qed.

Lemma unstep_run (o : Obj) (m : Machine E) :
  unstep (o, m) = (tt, (o, with_trace (set_step false m) [EvStepOff])).
Proof. destruct o as [b|[b ch bk]]; reflexivity. Qed.

Lemma enable_run (o : Obj) (m : Machine E) :
  enable (o, m) = (tt, (o, with_trace (set_enable true m) [EvEnableOn])).
Proof. destruct o as [b|[b ch bk]]; reflexivity. Qed.

Lemma disable_run (o : Obj) (m : Machine E) :
  disable (o, m) = (tt, (o, with_trace (set_enable false m) [EvEnableOff])).
Proof. destruct o as [b|[b ch bk]]; reflexivity. Qed.

Lemma dir_run (d : bool) (o : Obj) (m : Machine E) :
  dir d (o, m)
  = (tt, (with_base o (StepperDriverBase.set_direction d (base_of o)),
          with_trace (set_dir d m) [EvDirSet d])).
Proof. destruct o as [b|[b ch bk]]; reflexivity. Qed.

(** What one call does to the object, the pins and the trace. *)
Lemma run_op_facts (op : Op) (o : Obj) (m : Machine E) :
  let r := run_op op (o, m) in
  let o' := fst (snd r) in
  let m' := snd (snd r) in
  o' = with_base o (base_of o') /\
  StepperDriverBase.minEndstop (base_of o')
    = StepperDriverBase.minEndstop (base_of o) /\
  StepperDriverBase.maxEndstop (base_of o')
    = StepperDriverBase.maxEndstop (base_of o) /\
  StepperDriverBase.direction (base_of o')
    = last_dir [op] (StepperDriverBase.direction (base_of o)) /\
  dir_pin m' = last_dir [op] (dir_pin m) /\
  enable_pin m' = last_enable [op] (enable_pin m) /\
  fst r = (if is_stepCond_op op
           then Some (fst (update (endstops m (endstop_for (base_of o)))))
           else None) /\
  exists evs,
    emitted m m' evs /\
    count is_step_on evs
      = (match op, fst r with
         | OpStep, _ => 1
         | OpStepCond, Some false => 1
         | _, _ => 0
         end)%nat /\
    count is_update evs = (if is_stepCond_op op then 1 else 0)%nat /\
    (is_step_op op = false -> gated false evs = true) /\
    polls_within (base_of o) evs.
Proof.
  assert (Hnone : forall (b : StepperDriverBase.t) (e : Event),
            is_update e = false -> polls_within b [e]).
  { intros b e He p t [Hin|[]]. subst e. discriminate. }
  destruct op; cbn zeta; unfold run_op.
  - rewrite stepCond_run. cbn zeta. cbn [fst snd].
    rewrite with_base_same.
    destruct (update (endstops m (endstop_for (base_of o)))) as [t e'].
    cbn [fst snd dir_pin enable_pin is_stepCond_op].
    repeat (split; [reflexivity|]).
    exists (EvUpdate (endstop_for (base_of o)) t
              :: if t then [] else [EvStepOn]).
    split; [reflexivity|].
    assert (Hp : polls_within (base_of o)
                   (EvUpdate (endstop_for (base_of o)) t
                      :: if t then [] else [EvStepOn])).
    { intros p t' Hin. unfold endstop_for in Hin.
      destruct t; cbn in Hin;
        repeat match goal with
               | Hor : _ \/ _ |- _ => destruct Hor
               | Hf : False |- _ => destruct Hf
               | Heq : EvUpdate _ _ = EvUpdate _ _ |- _ =>
                 injection Heq as <- _
               | Heq : EvStepOn = EvUpdate _ _ |- _ => discriminate Heq
               end;
        destruct (StepperDriverBase.direction (base_of o)); auto. }
    destruct t; cbn; auto.
  - rewrite step_run. cbn [fst snd]. rewrite with_base_same.
    repeat (split; [reflexivity|]). exists [EvStepOn].
    repeat split; [discriminate | now apply Hnone].
  - rewrite unstep_run. cbn [fst snd]. rewrite with_base_same.
    repeat (split; [reflexivity|]). exists [EvStepOff].
    repeat split. now apply Hnone.
  - rewrite dir_run. cbn [fst snd]. rewrite !base_of_with_base.
    repeat (split; [reflexivity|]). exists [EvDirSet d].
    repeat split. now apply Hnone.
  - rewrite enable_run. cbn [fst snd]. rewrite with_base_same.
    repeat (split; [reflexivity|]). exists [EvEnableOn].
    repeat split. now apply Hnone.
  - rewrite disable_run. cbn [fst snd]. rewrite with_base_same.
    repeat (split; [reflexivity|]). exists [EvEnableOff].
    repeat split. now apply Hnone.
Qed.
End Calls.

(** ** Sequences of stepping calls *)

Lemma gated_weaken (evs : list Event) (ok : bool) :
  gated false evs = true -> gated ok evs = true.
Proof.
  destruct ok; [|trivial]. destruct evs as [|e evs]; [trivial|].
  destruct e; cbn; try trivial. discriminate.
Qed.

Lemma gated_app (e1 : list Event) :
  forall (ok : bool) (e2 : list Event),
    gated ok e1 = true -> gated false e2 = true ->
    gated ok (e1 ++ e2) = true.
Proof.
  induction e1 as [|e e1 IH]; intros ok e2 H1 H2.
  - now apply gated_weaken.
  - destruct e; cbn in *; try (now apply IH).
    apply andb_true_iff in H1. destruct H1 as [-> H1]. now apply IH.
Qed.

Lemma polls_within_app (b : StepperDriverBase.t) (e1 e2 : list Event) :
  polls_within b e1 -> polls_within b e2 -> polls_within b (e1 ++ e2).
Proof.
  intros H1 H2 p t Hin. apply in_app_or in Hin.
  destruct Hin; [eapply H1 | eapply H2]; eassumption.
Qed.

Lemma polls_within_same_endstops (b b' : StepperDriverBase.t)
    (evs : list Event) :
  StepperDriverBase.minEndstop b' = StepperDriverBase.minEndstop b ->
  StepperDriverBase.maxEndstop b' = StepperDriverBase.maxEndstop b ->
  polls_within b' evs -> polls_within b evs.
Proof. intros Hmin Hmax Hp p t Hin. rewrite <- Hmin, <- Hmax. eauto. Qed.

Lemma last_dir_cons (op : Op) (ops : list Op) (d0 : bool) :
  last_dir (op :: ops) d0 = last_dir ops (last_dir [op] d0).
Proof. reflexivity. Qed.

Lemma last_enable_cons (op : Op) (ops : list Op) (e0 : bool) :
  last_enable (op :: ops) e0 = last_enable ops (last_enable [op] e0).
Proof. reflexivity. Qed.

(** Once [dir()] has been called, what came before does not matter. *)
Lemma last_dir_forgets (ops : list Op) :
  forall d1 d2, existsb is_dir_op ops = true ->
    last_dir ops d1 = last_dir ops d2.
Proof.
  induction ops as [|op ops IH]; intros d1 d2 Hdir; [discriminate|].
  rewrite (last_dir_cons op ops d1), (last_dir_cons op ops d2).
  destruct op; cbn in Hdir |- *; try (now apply IH).
  reflexivity.
Qed.

Section SequenceFacts.
Context {E : Type} `{EndstopDriver E} {Chip : Type} `{TMC2130Stepper Chip}.
Local Abbreviation Obj := (StepperDriver Chip).

Lemma run_ops_facts (ops : list Op) :
  forall (o : Obj) (m : Machine E),
    let r := run_ops ops (o, m) in
    let o' := fst (snd r) in
    let m' := snd (snd r) in
    o' = with_base o (base_of o') /\
    StepperDriverBase.minEndstop (base_of o')
      = StepperDriverBase.minEndstop (base_of o) /\
    StepperDriverBase.maxEndstop (base_of o')
      = StepperDriverBase.maxEndstop (base_of o) /\
    StepperDriverBase.direction (base_of o')
      = last_dir ops (StepperDriverBase.direction (base_of o)) /\
    dir_pin m' = last_dir ops (dir_pin m) /\
    enable_pin m' = last_enable ops (enable_pin m) /\
    List.length (fst r) = List.length (List.filter is_stepCond_op ops) /\
    exists evs,
      emitted m m' evs /\
      count is_step_on evs
        = (List.length (List.filter is_step_op ops)
           + List.length (List.filter negb (fst r)))%nat /\
      count is_update evs = List.length (List.filter is_stepCond_op ops) /\
      (forallb (fun op => negb (is_step_op op)) ops = true ->
       gated false evs = true) /\
      polls_within (base_of o) evs.
Proof.
  induction ops as [|op ops IH]; intros o m; cbn zeta.
  - cbn [run_ops fst snd]. rewrite with_base_same.
    repeat (split; [reflexivity|]). exists [].
    unfold emitted. rewrite app_nil_r. repeat split.
    intros p t [].
  - cbn [run_ops]. cbv zeta.
    pose proof (run_op_facts op o m) as F. cbv zeta in F.
    destruct (run_op op (o, m)) as [res [o1 m1]]. cbn [fst snd] in F |- *.
    destruct F as (Fo & Fmin & Fmax & Fdir & Fpin & Fen & Fres
                   & e1 & Fe & Fstep & Fupd & Fgate & Fpoll).
    specialize (IH o1 m1). cbv zeta in IH.
    destruct (run_ops ops (o1, m1)) as [rs [o2 m2]]. cbn [fst snd] in IH |- *.
    destruct IH as (Io & Imin & Imax & Idir & Ipin & Ien & Ilen
                    & e2 & Ie & Istep & Iupd & Igate & Ipoll).
    split; [ | split; [ | split; [ | split; [ | split; [ | split;
      [ | split ]]]]]].
    + rewrite Io, Fo, with_base_twice, base_of_with_base. reflexivity.
    + congruence.
    + congruence.
    + rewrite (last_dir_cons op ops), <- Fdir. exact Idir.
    + rewrite (last_dir_cons op ops), <- Fpin. exact Ipin.
    + rewrite (last_enable_cons op ops), <- Fen. exact Ien.
    + subst res. destruct op; cbn; congruence.
    + exists (e1 ++ e2). split; [ | split; [ | split; [ | split ]]].
      * unfold emitted in *. rewrite Ie, Fe. now rewrite app_assoc.
      * rewrite count_app, Fstep, Istep. subst res.
        destruct op; cbn; try lia.
        destruct (fst (update _)); cbn; lia.
      * rewrite count_app, Fupd, Iupd. destruct op; reflexivity.
      * intros Hno. cbn in Hno. apply andb_true_iff in Hno.
        destruct Hno as [Hop Hops]. apply negb_true_iff in Hop.
        apply gated_app; auto.
      * apply polls_within_app; [exact Fpoll|].
        now apply (polls_within_same_endstops _ (base_of o1)).
Qed.
End SequenceFacts.

Section SequenceProperties.
Context {E : Type} `{EndstopDriver E} {Chip : Type} `{TMC2130Stepper Chip}.
Local Abbreviation Obj := (StepperDriver Chip).

(** X1.  Whatever stepping calls are made, in whatever order, on either
    class: the direction flag is the argument of the last [dir()] (the
    initial flag if there was none), the direction pin likewise, the two
    endstop pointers are never reassigned, and the object keeps its class and
    everything but its base-class part. *)
Theorem direction_follows_last_dir (ops : list Op) (o : Obj)
    (m : Machine E) :
  let s' := snd (run_ops ops (o, m)) in
  StepperDriverBase.direction (base_of (fst s'))
    = last_dir ops (StepperDriverBase.direction (base_of o)) /\
  dir_pin (snd s') = last_dir ops (dir_pin m) /\
  StepperDriverBase.minEndstop (base_of (fst s'))
    = StepperDriverBase.minEndstop (base_of o) /\
  StepperDriverBase.maxEndstop (base_of (fst s'))
    = StepperDriverBase.maxEndstop (base_of o) /\
  fst s' = with_base o (base_of (fst s')).
Proof.
  cbv zeta. pose proof (run_ops_facts ops o m) as F. cbv zeta in F.
  destruct F as (Fo & Fmin & Fmax & Fdir & Fpin & _). auto.
Qed.

(** X2.  The direction pin and the direction flag agree after any sequence
    of stepping calls, provided they agreed before it or the sequence
    contains a [dir()]: no call changes one without the other. *)
Theorem dir_pin_mirrors_direction (ops : list Op) (o : Obj) (m : Machine E)
    (Hsync : dir_pin m = StepperDriverBase.direction (base_of o)
             \/ existsb is_dir_op ops = true) :
  let s' := snd (run_ops ops (o, m)) in
  dir_pin (snd s') = StepperDriverBase.direction (base_of (fst s')).
Proof.
  cbv zeta. pose proof (run_ops_facts ops o m) as F. cbv zeta in F.
  destruct F as (_ & _ & _ & Fdir & Fpin & _). rewrite Fdir, Fpin.
  destruct Hsync as [->|Hdir]; [reflexivity|].
  now apply last_dir_forgets.
Qed.

(** X3.  The enable output after any sequence of stepping calls is that of
    the last [enable()] or [disable()] in it, and is what it was when there
    is none: repeating a call changes nothing, and stepping and direction
    calls never touch the output stage. *)
Theorem enable_follows_last_call (ops : list Op) (o : Obj) (m : Machine E) :
  enable_pin (snd (snd (run_ops ops (o, m))))
  = last_enable ops (enable_pin m) /\
  enable_pin (snd (snd (run_ops (ops ++ [OpEnable; OpDisable]) (o, m))))
  = false /\
  enable_pin (snd (snd (run_ops (ops ++ [OpDisable; OpEnable]) (o, m))))
  = true /\
  enable_pin (snd (snd (run_ops (ops ++ [OpEnable; OpEnable]) (o, m))))
  = enable_pin (snd (snd (run_ops (ops ++ [OpEnable]) (o, m)))).
Proof.
  assert (G : forall l, enable_pin (snd (snd (run_ops l (o, m))))
                        = last_enable l (enable_pin m)).
  { intros l. pose proof (run_ops_facts l o m) as F. cbv zeta in F.
    destruct F as (_ & _ & _ & _ & _ & Fen & _). exact Fen. }
  rewrite !G. unfold last_enable. rewrite !fold_left_app. repeat split.
Qed.

(** X4.  Pulse accounting.  In any sequence of stepping calls the number of
    [stepCls::on()] is the number of [step()] calls plus the number of
    [stepCond()] calls that returned false, and the number of endstop polls
    is the number of [stepCond()] calls: no other call polls an endstop or
    raises the step signal. *)
Theorem pulses_are_accounted_for (ops : list Op) (o : Obj) (m : Machine E) :
  let r := run_ops ops (o, m) in
  exists evs,
    emitted m (snd (snd r)) evs /\
    count is_step_on evs
      = (List.length (List.filter is_step_op ops)
         + List.length (List.filter negb (fst r)))%nat /\
    count is_update evs = List.length (List.filter is_stepCond_op ops) /\
    List.length (fst r) = List.length (List.filter is_stepCond_op ops).
Proof.
  cbv zeta. pose proof (run_ops_facts ops o m) as F. cbv zeta in F.
  destruct F as (_ & _ & _ & _ & _ & _ & Flen & evs & Fe & Fs & Fu & _).
  exists evs. auto.
Qed.

(** X5.  Endstop gating over a whole run.  As long as [step()] is not used,
    every [stepCls::on()] of a sequence of calls comes immediately after a
    poll that reported "not triggered", and every poll is on one of the two
    endstops the driver was built with. *)
Theorem pulses_follow_open_polls (ops : list Op) (o : Obj) (m : Machine E)
    (Hno_step : forallb (fun op => negb (is_step_op op)) ops = true) :
  exists evs,
    emitted m (snd (snd (run_ops ops (o, m)))) evs /\
    gated false evs = true /\
    polls_within (base_of o) evs.
Proof.
  pose proof (run_ops_facts ops o m) as F. cbv zeta in F.
  destruct F as (_ & _ & _ & _ & _ & _ & _ & evs & Fe & _ & _ & Fg & Fp).
  exists evs. auto.
Qed.

(** One call on any object is the same call on a [SimpleStepperDriver] with
    the same base-class part. *)
Lemma run_op_like_simple (op : Op) (o : Obj) (m : Machine E) :
  run_op op (o, m)
  = let r := run_op op (Simple (Chip := Chip) (base_of o), m) in
    (fst r, (with_base o (base_of (fst (snd r))), snd (snd r))).
Proof.
  cbv zeta. destruct op; unfold run_op;
    rewrite ?stepCond_run, ?step_run, ?unstep_run, ?dir_run, ?enable_run,
      ?disable_run;
    cbv zeta; cbn [fst snd base_of with_base];
    rewrite ?with_base_same; reflexivity.
Qed.

Lemma run_ops_like_simple (ops : list Op) :
  forall (o : Obj) (m : Machine E),
    run_ops ops (o, m)
    = let r := run_ops ops (Simple (Chip := Chip) (base_of o), m) in
      (fst r, (with_base o (base_of (fst (snd r))), snd (snd r))).
Proof.
  induction ops as [|op ops IH]; intros o m; cbv zeta.
  - cbn [run_ops fst snd base_of]. now rewrite with_base_same.
  - cbn [run_ops]. cbv zeta. rewrite (run_op_like_simple op o m). cbv zeta.
    destruct (run_op op (Simple (Chip := Chip) (base_of o), m)) as [res [o1 m1]].
    cbn [fst snd].
    rewrite (IH (with_base o (base_of o1)) m1). cbv zeta.
    rewrite base_of_with_base, with_base_twice.
    rewrite (IH o1 m1). cbv zeta.
    destruct (run_ops ops (Simple (Chip := Chip) (base_of o1), m1))
      as [rs [o2 m2]].
    cbn [fst snd]. rewrite ?base_of_with_base. reflexivity.
Qed.

(** X6.  The stepping interface of [TMC2130StepperDriver] is that of
    [SimpleStepperDriver]: any sequence of stepping calls on a TMC2130 driver
    returns the same results and leaves the same pins, endstops and trace as
    on a simple driver with the same endstops and direction, and leaves the
    chip handle and the backup record alone. *)
Theorem tmc_steps_like_simple (ops : list Op)
    (d : TMC2130StepperDriver.t Chip) (m : Machine E) :
  let rt := run_ops ops (TMC2130 d, m) in
  let rs := run_ops ops (Simple (Chip := Chip) (TMC2130StepperDriver.base d), m) in
  fst rt = fst rs /\
  snd (snd rt) = snd (snd rs) /\
  fst (snd rt)
  = TMC2130 (TMC2130StepperDriver.mk (base_of (fst (snd rs)))
               (TMC2130StepperDriver.driver d)
               (TMC2130StepperDriver.backup d)).
Proof.
  cbv zeta. rewrite (run_ops_like_simple ops (TMC2130 d) m). cbv zeta.
  cbn [base_of fst snd with_base]. repeat split.
Qed.
End SequenceProperties.

(** Calls that step, turn round and step again, with the pin and the flag
    out of step at the start. *)
Lemma dir_pin_mirrors_direction_witness :
  let o : StepperDriver SimChip.t := TMC2130 (Bench.tmc 0 true) in
  let ops := [OpStepCond; OpDir false; OpStepCond; OpStep] in
  let s' := snd (run_ops ops (o, Bench.machine)) in
  (dir_pin Bench.machine = StepperDriverBase.direction (base_of o)
   \/ existsb is_dir_op ops = true) /\
  dir_pin (snd s') = StepperDriverBase.direction (base_of (fst s')).
Proof.
  cbv zeta.
  assert (Hsync : dir_pin Bench.machine
                  = StepperDriverBase.direction
                      (base_of (TMC2130 (Bench.tmc 0 true)))
                  \/ existsb is_dir_op
                       [OpStepCond; OpDir false; OpStepCond; OpStep] = true)
    by (right; reflexivity).
  split; [exact Hsync|].
  exact (dir_pin_mirrors_direction
           [OpStepCond; OpDir false; OpStepCond; OpStep]
           (TMC2130 (Bench.tmc 0 true)) Bench.machine Hsync).
Defined.

(** A run against the triggered max endstop, then away from it. *)
Lemma pulses_follow_open_polls_witness :
  let o : StepperDriver SimChip.t := Simple (Bench.base true) in
  let ops := [OpStepCond; OpUnstep; OpDir false; OpStepCond; OpUnstep] in
  forallb (fun op => negb (is_step_op op)) ops = true /\
  exists evs,
    emitted Bench.machine (snd (snd (run_ops ops (o, Bench.machine)))) evs /\
    gated false evs = true /\
    polls_within (base_of o) evs.
Proof.
  cbv zeta. split; [reflexivity|].
  exact (pulses_follow_open_polls
           [OpStepCond; OpUnstep; OpDir false; OpStepCond; OpUnstep]
           (Simple (Bench.base true)) Bench.machine eq_refl).
Defined.

(** ** The standstill wait in closed form *)

Lemma uint16_small (c : Z) : 0 <= c < 65536 -> uint16 c = c.
Proof. intros Hc. unfold uint16, to_uint. now apply Z.mod_small. Qed.

Lemma uint16_range (c : Z) : 0 <= uint16 c < 65536.
Proof. unfold uint16, to_uint. apply Z.mod_pos_bound. reflexivity. Qed.

(** The counter is the number of rounds modulo 65536. *)
Lemma count_at_closed (j : nat) :
  forall c, 0 <= c < 65536 -> count_at j c = (c + Z.of_nat j) mod 65536.
Proof.
  induction j as [|j IH]; intros c Hc.
  - cbn [count_at]. rewrite Z.add_0_r. symmetry. now apply Z.mod_small.
  - cbn [count_at]. rewrite IH by apply uint16_range.
    unfold uint16, to_uint. change (2 ^ 16) with 65536.
    rewrite Zplus_mod_idemp_l. f_equal. lia.
Qed.

Lemma wait_limit_tenfold (timeout : Z) : wait_limit timeout = timeout * 10.
Proof.
  unfold wait_limit, TRINAMIC_WAIT_RESOLUTION_uS.
  replace (timeout * 1000) with (timeout * 10 * 100) by lia.
  apply Z.quot_mul. discriminate.
Qed.

Section ExitRound.
Context {Chip : Type} `{TMC2130Stepper Chip}.

Lemma wait_test_false (timeout c : Z) (b : bool) :
  wait_test timeout c b = false <-> b = true /\ wait_limit timeout <= c.
Proof.
  unfold wait_test, wait_limit. rewrite orb_false_iff, negb_false_iff.
  rewrite Z.ltb_ge. reflexivity.
Qed.

Lemma wait_test_true (timeout c : Z) (b : bool) :
  wait_test timeout c b = true <-> b = false \/ c < wait_limit timeout.
Proof.
  unfold wait_test, wait_limit. rewrite orb_true_iff, negb_true_iff.
  rewrite Z.ltb_lt. reflexivity.
Qed.

Lemma exits_after_spec (timeout : Z) (k : nat) :
  forall (c : Z) (ch : Chip),
    exits_after timeout k c ch = true <->
    (stst_at k ch = true /\ wait_limit timeout <= count_at k c /\
     forall j, (j < k)%nat ->
       stst_at j ch = false \/ count_at j c < wait_limit timeout).
Proof.
  induction k as [|k IH]; intros c ch; cbn [exits_after].
  - rewrite negb_true_iff, wait_test_false. unfold stst_at. cbn. split.
    + intros [Hb Hc]. repeat split; auto. intros j Hj. lia.
    + intros (Hb & Hc & _). auto.
  - rewrite andb_true_iff, wait_test_true, IH. split.
    + intros (Hgo & Hb & Hc & Hbefore). repeat split; auto.
      intros [|j] Hj; [exact Hgo|]. apply (Hbefore j). lia.
    + intros (Hb & Hc & Hbefore). split; [exact (Hbefore 0%nat ltac:(lia))|].
      repeat split; auto. intros j Hj. apply (Hbefore (S j)). lia.
Qed.

Lemma exit_round_exits (timeout : Z) (k : nat) (ch : Chip) :
  exit_round timeout k ch <-> exits_after timeout k 0 ch = true.
Proof.
  rewrite exits_after_spec. unfold exit_round.
  rewrite (count_at_closed k 0) by lia. cbn [Z.add].
  split; intros (Hb & Hc & Hbefore); repeat split; auto; intros j Hj;
    specialize (Hbefore j Hj); rewrite (count_at_closed j 0) in * by lia;
    exact Hbefore.
Qed.


End ExitRound.

Section WaitProperties.
Context {E : Type} `{EndstopDriver E} {Chip : Type} `{TMC2130Stepper Chip}.
Local Abbreviation tmc := (TMC2130StepperDriver.t Chip).

(** X7.  When the standstill wait returns, and what it has done then.
    [TRINAMIC_WAIT_FOR_STANDSTILL(timeout)] returns exactly when there is a
    first round [k] in which the chip reports standstill while the 16-bit
    counter ([k] modulo 65536) is no longer below [timeout * 1000 / 100]; it
    has then made [k] rounds of poll and delay and one last poll, and changed
    nothing but the chip state and the trace. *)
Theorem wait_returns_iff (timeout : Z) (fuel : nat) (d : tmc)
    (m : Machine E) (s' : tmc * Machine E) :
  TMC2130StepperDriver.TRINAMIC_WAIT_FOR_STANDSTILL timeout fuel (d, m)
  = Some (tt, s')
  <->
  exists k, (k < fuel)%nat /\
    exit_round timeout k (TMC2130StepperDriver.driver d) /\
    s' = (with_chip d (after_polls (S k) (TMC2130StepperDriver.driver d)),
          with_trace m (wait_rounds k (TMC2130StepperDriver.driver d)
                        ++ [EvChip stst true])).
Proof.
  unfold TMC2130StepperDriver.TRINAMIC_WAIT_FOR_STANDSTILL, WAIT_UNTIL.
  split.
  - intros Hr. destruct (wait_ended _ _ _ _ _ _ Hr) as [k [Hk Hex]].
    exists k. split; [exact Hk|]. split; [now apply exit_round_exits|].
    rewrite (wait_exits timeout k fuel 0 d m Hex Hk) in Hr. congruence.
  - intros [k (Hk & Hex & ->)]. apply exit_round_exits in Hex.
    now apply wait_exits.
Qed.



(** X10.  A motor that comes to rest once.  If the chip reports "moving" in
    its first [j0] polls and "standstill" from then on ([j0] at most 65535),
    the wait with the timeout of 100 used in this file makes exactly
    [max j0 1000] delays: the time to come to rest, or 100 ms, whichever is
    longer. *)
Theorem wait_for_motor_coming_to_rest (j0 fuel : nat) (d : tmc)
    (m : Machine E)
    (Hrest : forall j,
       stst_at j (TMC2130StepperDriver.driver d) = Nat.leb j0 j)
    (Hj0 : Z.of_nat j0 <= 65535)
    (Hfuel : (Nat.max j0 1000 < fuel)%nat) :
  exists s' evs,
    TMC2130StepperDriver.TRINAMIC_WAIT_FOR_STANDSTILL 100 fuel (d, m)
    = Some (tt, s') /\
    emitted m (snd s') (evs ++ [EvChip stst true]) /\
    count is_delay evs = Nat.max j0 1000.
Proof.
  eexists. exists (wait_rounds (Nat.max j0 1000)
                     (TMC2130StepperDriver.driver d)).
  split; [ | split ].
  - apply wait_returns_iff. exists (Nat.max j0 1000).
    split; [exact Hfuel|]. split; [|reflexivity].
    unfold exit_round. rewrite wait_limit_tenfold, Hrest. split; [|split].
    + apply Nat.leb_le. lia.
    + rewrite Z.mod_small by lia. lia.
    + intros j Hj. rewrite Hrest.
      destruct (Nat.leb_spec j0 j) as [Hle|Hlt]; [right|now left].
      rewrite Z.mod_small by lia. lia.
  - reflexivity.
  - apply wait_rounds_delays.
Qed.


End WaitProperties.

(** The simulated chip that comes to rest at poll [k]. *)
Lemma SimChip_still_from_rest (k j : nat) :
  stst_at j (Bench.chip_still_from k) = Nat.leb k j.
Proof.
  unfold stst_at.
  destruct (SimChip_after_polls j (Bench.chip_still_from k)) as [H1 H2].
  cbn. rewrite H1, H2. cbn. now rewrite Nat.add_0_r.
Qed.



(** A motor that comes to rest at its 1500th poll. *)
Lemma wait_for_motor_coming_to_rest_witness :
  let d := TMC2130StepperDriver.mk (Bench.base true)
             (Bench.chip_still_from 1500) Bench.zeros in
  (forall j, stst_at j (TMC2130StepperDriver.driver d) = Nat.leb 1500 j) /\
  Z.of_nat 1500 <= 65535 /\
  (Nat.max 1500 1000 < 1501)%nat /\
  exists s' evs,
    TMC2130StepperDriver.TRINAMIC_WAIT_FOR_STANDSTILL 100 1501
      (d, Bench.machine) = Some (tt, s') /\
    emitted Bench.machine (snd s') (evs ++ [EvChip stst true]) /\
    count is_delay evs = Nat.max 1500 1000.
Proof.
  cbv zeta.
  assert (H1 : Z.of_nat 1500 <= 65535) by (vm_compute; discriminate).
  assert (H2 : (Nat.max 1500 1000 < 1501)%nat) by (vm_compute; lia).
  split; [exact (SimChip_still_from_rest 1500)|].
  split; [exact H1|]. split; [exact H2|].
  exact (wait_for_motor_coming_to_rest 1500 1501
           (TMC2130StepperDriver.mk (Bench.base true)
              (Bench.chip_still_from 1500) Bench.zeros)
           Bench.machine (SimChip_still_from_rest 1500) H1 H2).
Defined.

(** ** More on init() *)

Section InitProperties.
Context {E : Type} `{EndstopDriver E} {Chip : Type} `{TMC2130Stepper Chip}.
Local Abbreviation tmc := (TMC2130StepperDriver.t Chip).

Lemma wait_rounds_no_enable (k : nat) :
  forall ch : Chip, count is_enable_on (wait_rounds k ch) = 0%nat.
Proof. induction k as [|k IH]; intros ch; [reflexivity|]. apply IH. Qed.

(** X13.  The two ways [init()] returns.  It returns false exactly when the
    second connectivity test answers a nonzero status, whatever the first
    test answered and whatever the fuel.  It returns true exactly when the
    second test answers 0 and the standstill wait that follows the version
    report ends, in some round [k]. *)
Theorem init_outcome (fuel : nat) (d : tmc) (m : Machine E)
    (s' : tmc * Machine E) :
  (TMC2130StepperDriver.init fuel (d, m) = Some (false, s')
   <-> second_test (TMC2130StepperDriver.driver d) <> 0
       /\ s' = init_failed d m) /\
  (TMC2130StepperDriver.init fuel (d, m) = Some (true, s')
   <-> second_test (TMC2130StepperDriver.driver d) = 0
       /\ exists k, (k < fuel)%nat
          /\ exit_round 100 k (chip_reported (TMC2130StepperDriver.driver d))
          /\ s' = init_done k d m).
Proof.
  split; split.
  - intros Hr. apply init_returns in Hr.
    destruct Hr as [[Hbad Hs]|[_ [k [_ Hs]]]]; [|discriminate].
    split; [exact Hbad | congruence].
  - intros [Hbad ->]. now apply init_failure_run.
  - intros Hr. pose proof Hr as Hr'. apply init_returns in Hr'.
    destruct Hr' as [[_ Hs]|[Hok [k [Hk Hs]]]]; [discriminate|].
    split; [exact Hok|].
    assert (Hw : exists k, (k < fuel)%nat /\
              exits_after 100 k 0
                (chip_reported (TMC2130StepperDriver.driver d)) = true).
    { revert Hr. pose proof Hok as Hok'. apply Z.eqb_eq in Hok'.
      rewrite init_opening_run. cbv zeta. rewrite Hok'. cbn [negb].
      do 2 step. intros Hr. now apply run_wait_ended in Hr. }
    destruct Hw as [k' [Hk' Hex]]. exists k'. split; [exact Hk'|].
    split; [now apply exit_round_exits|].
    rewrite (init_success_run d m k' fuel Hok Hex Hk') in Hr. congruence.
  - intros (Hok & k & Hk & Hex & ->). apply exit_round_exits in Hex.
    now apply init_success_run.
Qed.

(** X14.  What [init()] touches.  Whenever [init()] returns, with result
    [r]: it first printed its banner and switched the enable output off; all
    it did to the chip came after that and before any switching on; the
    enable output is switched on, last of all, exactly when [r] is true, so
    that the enable output at the end is [r]; the chip was written five
    times when [r] is true and not at all when it is false.  The direction,
    the endstop pointers, the backup record, the step and direction pins
    and the endstops are as before. *)
Theorem init_enables_on_success_only (fuel : nat) (d : tmc) (m : Machine E)
    (r : bool) (s' : tmc * Machine E)
    (Hret : TMC2130StepperDriver.init fuel (d, m) = Some (r, s')) :
  (exists mid,
     emitted m (snd s')
       (EvPrintF "TMC2130 initialization..." :: EvEnableOff
          :: mid ++ (if r then [EvEnableOn] else [])) /\
     count is_enable_on mid = 0%nat /\
     count is_chip_write mid = (if r then 5 else 0)%nat) /\
  enable_pin (snd s') = r /\
  TMC2130StepperDriver.base (fst s') = TMC2130StepperDriver.base d /\
  TMC2130StepperDriver.backup (fst s') = TMC2130StepperDriver.backup d /\
  step_pin (snd s') = step_pin m /\
  dir_pin (snd s') = dir_pin m /\
  endstops (snd s') = endstops m.
Proof.
  apply init_returns in Hret.
  destruct Hret as [[_ Hs]|[_ [k [_ Hs]]]]; injection Hs as -> ->.
  - split; [|repeat split].
    exists [EvChip begin tt;
            EvChip test_connection
              (first_test (TMC2130StepperDriver.driver d));
            EvChip test_connection
              (second_test (TMC2130StepperDriver.driver d));
            EvPrintFLN "SPI error"].
    repeat split.
  - split; [|repeat split].
    set (ch := TMC2130StepperDriver.driver d).
    exists ([EvChip begin tt; EvChip test_connection (first_test ch);
             EvChip test_connection (second_test ch)]
            ++ init_report ch
            ++ wait_rounds k (chip_reported ch)
            ++ [EvChip stst true] ++ init_configuration).
    split; [ | split ].
    + unfold emitted, init_done, init_opening. cbn [snd trace with_trace].
      fold ch. f_equal. cbn [app]. do 5 f_equal.
      rewrite <- !app_assoc. reflexivity.
    + rewrite !count_app, wait_rounds_no_enable. reflexivity.
    + rewrite !count_app, wait_rounds_no_write. reflexivity.
Qed.
End InitProperties.

(** A chip that passes the tests and is at standstill. *)
Lemma init_enables_on_success_only_witness :
  exists s',
    TMC2130StepperDriver.init 1001 (Bench.tmc 0 true, Bench.machine)
    = Some (true, s') /\
    (exists mid,
       emitted Bench.machine (snd s')
         (EvPrintF "TMC2130 initialization..." :: EvEnableOff
            :: mid ++ [EvEnableOn]) /\
       count is_enable_on mid = 0%nat /\
       count is_chip_write mid = 5%nat) /\
    enable_pin (snd s') = true /\
    TMC2130StepperDriver.base (fst s')
      = TMC2130StepperDriver.base (Bench.tmc 0 true) /\
    TMC2130StepperDriver.backup (fst s')
      = TMC2130StepperDriver.backup (Bench.tmc 0 true) /\
    step_pin (snd s') = step_pin Bench.machine /\
    dir_pin (snd s') = dir_pin Bench.machine /\
    endstops (snd s') = endstops Bench.machine.
Proof.
  eexists. split.
  - vm_compute. reflexivity.
  - apply (init_enables_on_success_only 1001 (Bench.tmc 0 true)
             Bench.machine true).
    vm_compute. reflexivity.
Defined.

(** ** More on the homing bracket *)

Section HomingProperties.
Context {E : Type} `{EndstopDriver E} {Chip : Type} `{TMC2130Stepper Chip}.
Local Abbreviation tmc := (TMC2130StepperDriver.t Chip).

(** X15.  [afterHoming()] has no guard.  On a driver on which
    [beforeHoming()] was never called it writes whatever the backup record
    holds since construction: the six registers then hold these six values,
    reduced to 32 bits, whatever they held before. *)
Theorem afterHoming_writes_the_backup_it_finds
    {RF : RegisterFile Chip} (minES maxES : ptr) (chip : Chip)
    (junk : RegisterBackup.t) (m : Machine E) :
  let d := TMC2130StepperDriver.new minES maxES chip junk in
  let s' := snd (TMC2130StepperDriver.afterHoming (d, m)) in
  registers (TMC2130StepperDriver.driver (fst s'))
  = RegisterBackup.mk
      (uint32 (RegisterBackup.GCONF junk))
      (uint32 (RegisterBackup.CHOPCONF junk))
      (uint32 (RegisterBackup.COOLCONF junk))
      (uint32 (RegisterBackup.PWMCONF junk))
      (uint32 (RegisterBackup.TCOOLTHRS junk))
      (uint32 (RegisterBackup.TPWMTHRS junk)) /\
  emitted m (snd s') (restore_writes junk).
Proof.
  cbv zeta. rewrite afterHoming_run. cbn [fst snd]. tidy_homing.
  split; [apply registers_restored | reflexivity].
Qed.

(** X16.  Brackets do not nest.  A second [beforeHoming()] before the
    matching [afterHoming()] replaces the snapshot: after
    [beforeHoming(); ws1; beforeHoming(); ws2; afterHoming()] the registers
    hold what they held at the second [beforeHoming()], that is after the
    writes [ws1], not what they held at the first; and a further
    [afterHoming()] restores the same values again. *)
Theorem nested_beforeHoming_keeps_the_inner_snapshot
    {RF : RegisterFile Chip} (d : tmc) (m : Machine E)
    (ws1 ws2 : list (Register * Z)) :
  let s1 := snd (TMC2130StepperDriver.beforeHoming (d, m)) in
  let s2 := snd (write_registers ws1 s1) in
  let s3 := snd (TMC2130StepperDriver.beforeHoming s2) in
  let s4 := snd (write_registers ws2 s3) in
  let s5 := snd (TMC2130StepperDriver.afterHoming s4) in
  let s6 := snd (TMC2130StepperDriver.afterHoming s5) in
  registers (TMC2130StepperDriver.driver (fst s5))
  = registers (written ws1 (read_TPWMTHRS (TMC2130StepperDriver.driver d))) /\
  registers (TMC2130StepperDriver.driver (fst s6))
  = registers (TMC2130StepperDriver.driver (fst s5)).
Proof.
  cbv zeta. rewrite beforeHoming_run. cbn [fst snd].
  rewrite write_registers_run. cbn [fst snd]. tidy_homing.
  rewrite beforeHoming_run. cbn [fst snd]. tidy_homing.
  rewrite write_registers_run. cbn [fst snd]. tidy_homing.
  rewrite afterHoming_run. cbn [fst snd]. tidy_homing.
  rewrite afterHoming_run. cbn [fst snd]. do 2 tidy_homing.
  rewrite snapshot_registers, !registers_restored_registers. split;
    reflexivity.
Qed.

(** X17.  The bracket works on the chip and the backup record only.
    [beforeHoming()] and [afterHoming()] leave the direction, the endstop
    pointers, the pins and the endstops as they are, and make no call but
    register reads and writes on the chip (no standstill wait, no delay);
    [afterHoming()] leaves the backup record as it is, and after
    [beforeHoming()] each of its six fields is a 32-bit value. *)
Theorem homing_bracket_is_confined (d : tmc) (m : Machine E) :
  let sb := snd (TMC2130StepperDriver.beforeHoming (d, m)) in
  let sa := snd (TMC2130StepperDriver.afterHoming (d, m)) in
  let bk := TMC2130StepperDriver.backup (fst sb) in
  (TMC2130StepperDriver.base (fst sb) = TMC2130StepperDriver.base d /\
   TMC2130StepperDriver.base (fst sa) = TMC2130StepperDriver.base d /\
   TMC2130StepperDriver.backup (fst sa) = TMC2130StepperDriver.backup d) /\
  (snd sb = with_trace m (backup_reads (TMC2130StepperDriver.driver d)) /\
   snd sa = with_trace m (restore_writes (TMC2130StepperDriver.backup d))) /\
  (forallb is_chip_read (backup_reads (TMC2130StepperDriver.driver d)) = true
   /\ forallb is_chip_write (restore_writes (TMC2130StepperDriver.backup d))
      = true) /\
  (0 <= RegisterBackup.GCONF bk < 2 ^ 32 /\
   0 <= RegisterBackup.CHOPCONF bk < 2 ^ 32 /\
   0 <= RegisterBackup.COOLCONF bk < 2 ^ 32 /\
   0 <= RegisterBackup.PWMCONF bk < 2 ^ 32 /\
   0 <= RegisterBackup.TCOOLTHRS bk < 2 ^ 32 /\
   0 <= RegisterBackup.TPWMTHRS bk < 2 ^ 32).
Proof.
  cbv zeta. rewrite beforeHoming_run, afterHoming_run. cbn [fst snd].
  tidy_homing.
  split; [repeat split|]. split; [repeat split|]. split; [repeat split|].
  unfold snapshot, reg_value, uint32, to_uint.
  cbn [RegisterBackup.GCONF RegisterBackup.CHOPCONF RegisterBackup.COOLCONF
       RegisterBackup.PWMCONF RegisterBackup.TCOOLTHRS
       RegisterBackup.TPWMTHRS].
  repeat split; apply Z.mod_pos_bound; reflexivity.
Qed.
End HomingProperties.

(** A driver built on the simulated chip with a backup of zeros. *)
Lemma afterHoming_writes_the_backup_it_finds_witness :
  let d := TMC2130StepperDriver.new 0%nat 1%nat (Bench.chip 0 true)
             Bench.zeros in
  let s' := snd (TMC2130StepperDriver.afterHoming (d, Bench.machine)) in
  RegisterFile SimChip.t /\
  registers (TMC2130StepperDriver.driver (fst s'))
  = RegisterBackup.mk
      (uint32 (RegisterBackup.GCONF Bench.zeros))
      (uint32 (RegisterBackup.CHOPCONF Bench.zeros))
      (uint32 (RegisterBackup.COOLCONF Bench.zeros))
      (uint32 (RegisterBackup.PWMCONF Bench.zeros))
      (uint32 (RegisterBackup.TCOOLTHRS Bench.zeros))
      (uint32 (RegisterBackup.TPWMTHRS Bench.zeros)) /\
  emitted Bench.machine (snd s') (restore_writes Bench.zeros).
Proof.
  cbv zeta. split; [exact SimChip_RegisterFile|].
  exact (afterHoming_writes_the_backup_it_finds (RF := SimChip_RegisterFile)
           0%nat 1%nat (Bench.chip 0 true) Bench.zeros Bench.machine).
Defined.

(** Two brackets begun on the scenario registers, one inside the other. *)
Lemma nested_beforeHoming_keeps_the_inner_snapshot_witness :
  let d := Bench.tmc 0 true in
  let ws1 := [(GCONF, 11); (PWMCONF, 14)] in
  let ws2 := [(GCONF, 21); (CHOPCONF, 22)] in
  let s1 := snd (TMC2130StepperDriver.beforeHoming (d, Bench.machine)) in
  let s2 := snd (write_registers ws1 s1) in
  let s3 := snd (TMC2130StepperDriver.beforeHoming s2) in
  let s4 := snd (write_registers ws2 s3) in
  let s5 := snd (TMC2130StepperDriver.afterHoming s4) in
  let s6 := snd (TMC2130StepperDriver.afterHoming s5) in
  RegisterFile SimChip.t /\
  registers (TMC2130StepperDriver.driver (fst s5))
    = RegisterBackup.mk 11 2 3 14 5 6 /\
  registers (TMC2130StepperDriver.driver (fst s5))
  = registers (written ws1 (read_TPWMTHRS (TMC2130StepperDriver.driver d))) /\
  registers (TMC2130StepperDriver.driver (fst s6))
  = registers (TMC2130StepperDriver.driver (fst s5)).
Proof.
  cbv zeta. split; [exact SimChip_RegisterFile|]. split; [reflexivity|].
  exact (nested_beforeHoming_keeps_the_inner_snapshot
           (RF := SimChip_RegisterFile) (Bench.tmc 0 true) Bench.machine
           [(GCONF, 11); (PWMCONF, 14)] [(GCONF, 21); (CHOPCONF, 22)]).
Defined.

(** ** Configuration calls through the base class *)

Section Configuration.
Context {E : Type} `{EndstopDriver E} {Chip : Type} `{TMC2130Stepper Chip}.

(** X18.  [setMotorCurrentPercent()] is implemented by neither class: on
    every driver it changes nothing and calls nothing, also on a
    [TMC2130StepperDriver], whose [implementSetMaxCurrent()] answers true. *)
Theorem setMotorCurrentPercent_does_nothing (o : StepperDriver Chip)
    (m : Machine E) (percent : Z) :
  setMotorCurrentPercent percent (o, m) = (tt, (o, m)) /\
  (forall d, implementSetMaxCurrent (TMC2130 (Chip := Chip) d) = true).
Proof.
  split; [|reflexivity]. destruct o as [b|[b ch bk]]; reflexivity.
Qed.

(** X19.  A [SimpleStepperDriver] has nothing to configure: through the
    base class, [init()] returns true at once, and [init()], the three
    setters and the two homing hooks leave the object and the machine as
    they are and call nothing; both capability queries answer false. *)
Theorem simple_driver_configuration_is_inert (d : SimpleStepperDriver.t)
    (m : Machine E) (n : Z) (fuel : nat) :
  let o : StepperDriver Chip := Simple d in
  init fuel (o, m) = Some (true, (o, m)) /\
  setMicrosteps n fuel (o, m) = Some (tt, (o, m)) /\
  setMotorCurrent n fuel (o, m) = Some (tt, (o, m)) /\
  setMotorCurrentPercent n (o, m) = (tt, (o, m)) /\
  beforeHoming (o, m) = (tt, (o, m)) /\
  afterHoming (o, m) = (tt, (o, m)) /\
  implementSetMicrosteps o = false /\
  implementSetMaxCurrent o = false.
Proof. cbv zeta. repeat split. Qed.

(** X20.  A driver fresh from its constructor moves toward max: before any
    [dir()], [stepCond()] on either class polls the endstop given as
    [maxES], returns what it reports and never polls [minES]. *)
Theorem new_driver_consults_max_endstop (minES maxES : ptr) (chip : Chip)
    (junk : RegisterBackup.t) (m : Machine E) :
  let t := fst (update (endstops m maxES)) in
  let evs := EvUpdate maxES t :: if t then [] else [EvStepOn] in
  let rs := stepCond (Simple (Chip := Chip)
                        (SimpleStepperDriver.new minES maxES), m) in
  let rt := stepCond (TMC2130 (TMC2130StepperDriver.new minES maxES chip
                                 junk), m) in
  fst rs = t /\ emitted m (snd (snd rs)) evs /\
  fst rt = t /\ emitted m (snd (snd rt)) evs.
Proof.
  cbv zeta. rewrite !stepCond_run. cbv zeta. cbn [fst snd]. repeat split.
Qed.
End Configuration.
